(** * form3api: the resilient request-execution engine

    A shallow embedding of the Go package [form3api] (files [errors.go],
    [backoff.go], [api.go], [model.go]) and the verification of its retry
    loop, backoff policy, error classifier and error matching. *)

From Stdlib Require Import ZArith List String Bool Lia Ascii.
From Stdlib Require Import Strings.Byte.
From Stdlib Require Import SpecFloat DecimalString.
Import ListNotations.
Local Open Scope string_scope.
Local Open Scope list_scope.
Local Open Scope Z_scope.

(** ** model.go: wire structures *)

(** [GenericError]: body of a 400 or 409 reply. *)
Record GenericError := mkGenericError {
  ErrorMessage : string;
  ErrorCode : string
}.

(** [ForbiddenError]: body of a 403 reply. *)
Record ForbiddenError := mkForbiddenError {
  Error : string;
  ErrorDescription : string
}.

(** Go pointers to scalars ([*string], [*bool], [*int64]) are [option]s,
    slices are lists, [nil] is [None]. *)
Record AccountAttributes := mkAccountAttributes {
  AccountClassification : option string;
  AccountMatchingOptOut : option bool;
  AccountNumber : string;
  AlternativeNames : list string;
  BankID : string;
  BankIDCode : string;
  BaseCurrency : string;
  Bic : string;
  Country : option string;
  Iban : string;
  JointAccount : option bool;
  Name : list string;
  SecondaryIdentification : string;
  Status : option string;
  Switched : option bool
}.

Record AccountData := mkAccountData {
  Attributes : option AccountAttributes;
  ID : string;
  OrganisationID : string;
  Type_ : string;
  Version : option Z
}.

(** The zero value [AccountData{}]. *)
Definition AccountData_zero : AccountData :=
  mkAccountData None EmptyString EmptyString EmptyString None.

(** ** errors.go: the error taxonomy *)

(** The struct types of the package that implement [error]. *)
Inductive errStruct :=
| ErrHttp (StatusCode : Z)
| ErrNotFound
| ErrTooManyRetries
| ErrBadRequest (g : GenericError)
| ErrConflict (g : GenericError)
| ErrForbidden (f : ForbiddenError).

(** A Go [error] interface value, by dynamic type.  The package always
    hands out pointers ([&ErrBadRequest{...}], [new(ErrNotFound)]); the
    struct types by value are errors too, because every [Error() string]
    has a value receiver.  Errors of other packages (encoding/json,
    net/http, context) are kept apart by the package that made them. *)
Inductive error :=
| Ptr (s : errStruct)
| Val (s : errStruct)
| JsonError (msg : string)
| TransportError (msg : string)
| RequestError (msg : string)
| ContextError (deadline : bool).

Definition newErrHttp (statusCode : Z) : error := Ptr (ErrHttp statusCode).
Definition newErrBadRequest (e : GenericError) : error := Ptr (ErrBadRequest e).
Definition newErrConflict (e : GenericError) : error := Ptr (ErrConflict e).
Definition newErrForbiden (e : ForbiddenError) : error := Ptr (ErrForbidden e).

(** [a.ErrorCode == b.ErrorCode || b.ErrorCode == empty], and the same on the
    message. *)
Definition isSameGenericError (a b : GenericError) : bool :=
  (String.eqb (ErrorCode a) (ErrorCode b) || String.eqb (ErrorCode b) EmptyString) &&
  (String.eqb (ErrorMessage a) (ErrorMessage b) || String.eqb (ErrorMessage b) EmptyString).

Definition isSameForbiddenError (a b : ForbiddenError) : bool :=
  (String.eqb (Error a) (Error b) || String.eqb (Error b) EmptyString) &&
  (String.eqb (ErrorDescription a) (ErrorDescription b)
   || String.eqb (ErrorDescription b) EmptyString).

(** [func (e *ErrBadRequest) Is(target error) bool]: the receiver is given
    by its embedded [GenericError]; the type assertion
    of [target] to pointer-to-[ErrBadRequest] succeeds on a pointer of that
    type only. *)
Definition ErrBadRequest_Is (e : GenericError) (target : error) : bool :=
  match target with
  | Ptr (ErrBadRequest t) => isSameGenericError e t
  | _ => false
  end.

Definition ErrConflict_Is (e : GenericError) (target : error) : bool :=
  match target with
  | Ptr (ErrConflict t) => isSameGenericError e t
  | _ => false
  end.

Definition ErrForbidden_Is (e : ForbiddenError) (target : error) : bool :=
  match target with
  | Ptr (ErrForbidden t) => isSameForbiddenError e t
  | _ => false
  end.

(** Method dispatch of [a.Is(target)]: only the three pointer types have
    the method in their method set. *)
Definition Is (a target : error) : option bool :=
  match a with
  | Ptr (ErrBadRequest g) => Some (ErrBadRequest_Is g target)
  | Ptr (ErrConflict g) => Some (ErrConflict_Is g target)
  | Ptr (ErrForbidden f) => Some (ErrForbidden_Is f target)
  | _ => None
  end.

(** The matching rule in the words of the specification: for each field,
    equal values or an empty field in the target. *)
Definition field_matches (mine theirs : string) : Prop :=
  mine = theirs \/ theirs = EmptyString.

(** ** Go integers and floats *)

(** Go's [int] and [time.Duration] are 64-bit two's complement; signed
    arithmetic wraps around. *)
Definition wrap64 (z : Z) : Z := (z + 2 ^ 63) mod 2 ^ 64 - 2 ^ 63.

Definition int_add (a b : Z) : Z := wrap64 (a + b).
Definition int_sub (a b : Z) : Z := wrap64 (a - b).
Definition int_mul (a b : Z) : Z := wrap64 (a * b).

(** [float64] is IEEE 754 binary64: 53 bits of precision, exponents below
    1024, round to nearest even. *)
Definition prec : Z := 53.
Definition emax : Z := 1024.
Definition float64 := spec_float.

Definition float64_of_Z (z : Z) : float64 := binary_normalize prec emax z 0 false.
Definition float64_mul : float64 -> float64 -> float64 := SFmul prec emax.

(** [math.Pow(1.5, float64(n))] for an unsigned [n].  Go documents [Pow] as
    [x**y]; the model takes the float64 nearest to the real power
    [3^n / 2^n], which is that power itself as long as [3^n] has at most 53
    bits ([n <= 33]).  [float64(n)] is exact below [2^53], far beyond the
    exponents at which the power is already [+Inf]. *)
Definition math_Pow_1_5 (n : nat) : float64 :=
  binary_normalize prec emax (3 ^ Z.of_nat n) (- Z.of_nat n) false.

(** [math.Round]: the nearest integer, halves away from zero.  A finite
    float with a negative exponent [e] is [m / 2^(-e)]; bit [-e-1] of [m]
    is the half. *)
Definition math_Round (x : float64) : float64 :=
  match x with
  | S754_finite s m e =>
      if 0 <=? e then x
      else
        let q := Z.shiftr (Zpos m) (- e) in
        let q' := if Z.testbit (Zpos m) (- e - 1) then q + 1 else q in
        binary_normalize prec emax (if s then - q' else q') 0 s
  | _ => x
  end.

(** The Go conversion [int(x)] of a [float64]: the fraction is dropped;
    when [int] cannot hold the value the language leaves the result to the
    implementation, here [None]. *)
Definition float64_to_int (x : float64) : option Z :=
  match x with
  | S754_zero _ => Some 0
  | S754_finite s m e =>
      let a := if 0 <=? e then Z.shiftl (Zpos m) e else Z.shiftr (Zpos m) (- e) in
      let v := if s then - a else a in
      if (- 2 ^ 63 <=? v) && (v <? 2 ^ 63) then Some v else None
  | _ => None
  end.

(** ** What the package takes from the Go runtime and standard library *)

(** A Go result pair [(value, error)] with exactly one side set. *)
Inductive result (A : Type) :=
| Ok (a : A)
| Err (e : error).
Arguments Ok {A} a.
Arguments Err {A} e.

(** One call of [json.NewDecoder(r).Decode(&v)]: how many bytes it took
    from the reader, what [v] holds afterwards, and the error if the
    input did not decode. *)
Record Decoded (T : Type) := mkDecoded {
  dec_read : nat;
  dec_value : T;
  dec_err : option string
}.
Arguments mkDecoded {T} _ _ _.
Arguments dec_read {T} _.
Arguments dec_value {T} _.
Arguments dec_err {T} _.

(** The library functions the package calls and does not define: the JSON
    codec at the three types it is used at, the request validation of
    [http.NewRequestWithContext] (method and URL syntax), and the value of
    an out-of-range [int(x)]. *)
Class GoLib := {
  int_overflow : float64 -> Z;
  json_Encode : option AccountData -> result (list byte);
  json_Decode_GenericError : list byte -> Decoded GenericError;
  json_Decode_ForbiddenError : list byte -> Decoded ForbiddenError;
  json_Decode_Data : list byte -> AccountData -> Decoded AccountData;
  http_NewRequest_check : string -> string -> option string
}.

(** ** backoff.go: the backoff policy *)

Definition minBackOffMs : Z := 100.
Definition backOffJitterMs : Z := 100.

(** [time.Millisecond], in nanoseconds, the unit of [time.Duration]. *)
Definition Millisecond : Z := 1000000.

Definition max (a b : Z) : Z := if a >? b then a else b.

(** [rand.Intn(n)] on one value of the random source: a number in the
    half-open interval from 0 to [n]. *)
Definition rand_Intn (raw n : Z) : Z := raw mod n.

Section BackOffDelay.

Context {lib : GoLib}.

(** Line 75 of backoff.go:
    [d := int(math.Round(math.Pow(1.5, float64(n)) * 500.0))]. *)
Definition backOff_base (n : nat) : Z :=
  let x := math_Round (float64_mul (math_Pow_1_5 n) (float64_of_Z 500)) in
  match float64_to_int x with
  | Some d => d
  | None => int_overflow x
  end.

(** Line 76: [d = max(minBackOffMs, d+(rand.Intn(backOffJitterMs)-backOffJitterMs/2))],
    with [raw] the value drawn from the random source. *)
Definition backOff_ms (n : nat) (raw : Z) : Z :=
  let d := backOff_base n in
  max minBackOffMs
      (int_add d (int_sub (rand_Intn raw backOffJitterMs)
                          (Z.quot backOffJitterMs 2))).

(** Line 77: the argument of [sleepContext],
    [time.Duration(d)*time.Millisecond], in nanoseconds. *)
Definition backOff_duration (n : nat) (raw : Z) : Z :=
  int_mul (backOff_ms n raw) Millisecond.

End BackOffDelay.

(** The formula of the specification, in exact arithmetic:
    [round(500 * 1.5^n)] with halves rounded up, as an integer number of
    milliseconds. *)
Definition spec_base (n : nat) : Z :=
  (1000 * 3 ^ Z.of_nat n + 2 ^ Z.of_nat n) / 2 ^ (Z.of_nat n + 1).

Definition spec_delay_ms (n : nat) (jitter : Z) : Z :=
  Z.max 100 (spec_base n + jitter).

(** ** The world the engine runs in *)

(** A response body handed out by the transport: the bytes not read yet
    and how many times [Close] was called on it. *)
Record body := mkBody {
  unread : list byte;
  closes : nat
}.

(** A [time.Timer]: armed, expired with its signal waiting in the channel,
    or at rest (stopped, or the signal received). *)
Inductive TimerState := Running | Fired | Idle.

(** What the engine does to the outside, in order. *)
Inductive Event :=
| EvSend (attempt : nat)
| EvDrain (resp : nat)
| EvClose (resp : nat)
| EvDecode (resp : nat)
| EvNewTimer (d : Z)
| EvStop (t : nat) (stopped : bool)
| EvTick (t : nat).

Record World := mkWorld {
  reqBody : list byte;        (* unread bytes of the buffer behind req.Body *)
  sent : list (list byte);    (* per [client.Do]: the body bytes the request carried *)
  bodies : list body;         (* response bodies, in the order received *)
  timers : list TimerState;   (* timers, in the order created *)
  rand_src : nat -> Z;        (* the values the random source will give *)
  draws : nat;                (* how many of them were taken *)
  trace : list Event
}.

Definition set_reqBody (b : list byte) (w : World) : World :=
  mkWorld b (sent w) (bodies w) (timers w) (rand_src w) (draws w) (trace w).
Definition set_sent (s : list (list byte)) (w : World) : World :=
  mkWorld (reqBody w) s (bodies w) (timers w) (rand_src w) (draws w) (trace w).
Definition set_bodies (bs : list body) (w : World) : World :=
  mkWorld (reqBody w) (sent w) bs (timers w) (rand_src w) (draws w) (trace w).
Definition set_timers (ts : list TimerState) (w : World) : World :=
  mkWorld (reqBody w) (sent w) (bodies w) ts (rand_src w) (draws w) (trace w).
Definition set_draws (n : nat) (w : World) : World :=
  mkWorld (reqBody w) (sent w) (bodies w) (timers w) (rand_src w) n (trace w).
Definition emit (e : Event) (w : World) : World :=
  mkWorld (reqBody w) (sent w) (bodies w) (timers w) (rand_src w) (draws w)
          (trace w ++ [e]).

(** A world in which nothing has happened yet. *)
Definition fresh (rnd : nat -> Z) : World := mkWorld [] [] [] [] rnd 0%nat [].

(** Replace element [i] of a list; out of range the list is unchanged. *)
Fixpoint list_set {A} (i : nat) (x : A) (l : list A) : list A :=
  match l, i with
  | [], _ => []
  | _ :: t, O => x :: t
  | h :: t, S j => h :: list_set j x t
  end.

(** State passing: a computation reads and updates the world. *)
Definition M (A : Type) : Type := World -> A * World.
Definition Return {A} (a : A) : M A := fun w => (a, w).
Definition bind {A B} (m : M A) (f : A -> M B) : M B :=
  fun w => let (a, w') := m w in f a w'.

Declare Scope go_scope.
Delimit Scope go_scope with go.
Notation "x <- m ;; k" := (bind m (fun x => k))
  (at level 100, m at next level, right associativity) : go_scope.
Notation "m ;;; k" := (bind m (fun _ => k))
  (at level 100, right associativity) : go_scope.
Local Open Scope go_scope.

(** *** The transport: [http.Client] *)

Record Request := mkRequest {
  Method : string;
  URL : string;
  Header : list (string * string);
  ContentLength : Z
}.

Record Response := mkResponse {
  StatusCode : Z;
  Body : nat                  (* index of the body in [bodies] *)
}.

(** What one [client.Do(req)] comes back with. *)
Inductive RoundTrip :=
| Failed (msg : string)
| Reply (status : Z) (content : list byte).

(** A client is any function of the number of the send, the request and
    the bytes it can read from [req.Body]; it says how many of them it
    reads and what comes back.  Stubs that ignore the request, clients
    that fail and the real client, which writes the whole body to the
    wire, are all of this shape. *)
Definition Client := nat -> Request -> list byte -> nat * RoundTrip.

Record api := mkApi {
  client : Client;
  retryCount : nat
}.

(** [a.client.Do(req)].  The request keeps the reader it was built with:
    what the client reads is gone from the buffer. *)
Definition client_Do (a : api) (req : Request) : M (result Response) :=
  fun w =>
    let i := List.length (sent w) in
    let avail := reqBody w in
    let (n, out) := client a i req avail in
    let w1 := emit (EvSend i)
                (set_reqBody (skipn n avail) (set_sent (sent w ++ [avail]) w)) in
    match out with
    | Failed msg => (Err (TransportError msg), w1)
    | Reply st content =>
        (Ok (mkResponse st (List.length (bodies w1))),
         set_bodies (bodies w1 ++ [mkBody content 0%nat]) w1)
    end.

(** [io.Copy(io.Discard, resp.Body)]: read to the end. *)
Definition io_Copy_Discard (r : nat) : M unit :=
  fun w =>
    match nth_error (bodies w) r with
    | Some b => (tt, emit (EvDrain r)
                       (set_bodies (list_set r (mkBody [] (closes b)) (bodies w)) w))
    | None => (tt, w)
    end.

(** [resp.Body.Close()]. *)
Definition Body_Close (r : nat) : M unit :=
  fun w =>
    match nth_error (bodies w) r with
    | Some b => (tt, emit (EvClose r)
                       (set_bodies (list_set r (mkBody (unread b) (S (closes b)))
                                             (bodies w)) w))
    | None => (tt, w)
    end.

(** [json.NewDecoder(resp.Body).Decode(&v)] with decoder [dec]: the bytes
    the decoder took are gone from the body. *)
Definition json_Decode {T} (dec : list byte -> Decoded T) (r : nat)
  : M (T * option error) :=
  fun w =>
    let b := nth r (bodies w) (mkBody [] 0%nat) in
    let d := dec (unread b) in
    ((dec_value d, option_map JsonError (dec_err d)),
     emit (EvDecode r)
       (set_bodies (list_set r (mkBody (skipn (dec_read d) (unread b)) (closes b))
                             (bodies w)) w)).

(** *** Timers and cancellation *)

(** How the [select] of one sleep resolves: the timer's signal arrives
    first, or the context is done first; in that case [raced] says whether
    the timer had expired as well by the time [Stop] is called. *)
Inductive SelectOutcome :=
| TickFirst
| DoneFirst (raced : bool).

(** A [context.Context] as the engine sees it: how each sleep under it
    resolves, by number of the timer, and [ctx.Err()] once it is done. *)
Record Context := mkContext {
  ctx_select : nat -> SelectOutcome;
  ctx_Err : error
}.

(** [newTimer(d)]: a fresh armed timer. *)
Definition newTimer (d : Z) : M nat :=
  fun w => (List.length (timers w),
            emit (EvNewTimer d) (set_timers (timers w ++ [Running]) w)).

(** The timer expires: its signal is put in the channel. *)
Definition timer_expire (t : nat) : M unit :=
  fun w => (tt, set_timers (list_set t Fired (timers w)) w).

(** [<-delay.Tick()]: take the signal out of the channel. *)
Definition timer_receive (t : nat) : M unit :=
  fun w => (tt, emit (EvTick t) (set_timers (list_set t Idle (timers w)) w)).

(** [delay.Stop()]: true when the call stops an armed timer, false when it
    had expired or was stopped; the channel is left as it is. *)
Definition timer_Stop (t : nat) : M bool :=
  fun w =>
    match nth t (timers w) Idle with
    | Running => (true, emit (EvStop t true) (set_timers (list_set t Idle (timers w)) w))
    | _ => (false, emit (EvStop t false) w)
    end.

(** One value from the random source. *)
Definition rand_next : M Z :=
  fun w => (rand_src w (draws w), set_draws (S (draws w)) w).

(** ** backoff.go: sleeping *)

(** [sleepContext].  The timer comes from the factory found in the context
    ([mustGetNewTimer]); the [select] waits for its signal or for the
    context, whichever the run gives first. *)
Definition sleepContext (ctx : Context) (duration : Z) : M (option error) :=
  delay <- newTimer duration ;;
  match ctx_select ctx delay with
  | TickFirst =>
      timer_expire delay ;;;
      timer_receive delay ;;;
      Return None
  | DoneFirst raced =>
      (if raced then timer_expire delay else Return tt) ;;;
      stopped <- timer_Stop delay ;;
      (if negb stopped then timer_receive delay else Return tt) ;;;
      Return (Some (ctx_Err ctx))
  end.

Section Engine.

Context {lib : GoLib}.

(** [backOff]: one draw of jitter, then sleep. *)
Definition backOff (ctx : Context) (n : nat) : M (option error) :=
  raw <- rand_next ;;
  sleepContext ctx (backOff_duration n raw).

(** ** api.go *)

Definition DefaultRetryCount : nat := 3.
Definition BaseURL : string := "http://accountapi:8080".

Definition drainAndCloseHttpResponse (resp : Response) : M unit :=
  io_Copy_Discard (Body resp) ;;;
  Body_Close (Body resp).

(** The statuses of the first [case] of the [switch] in [httpDoRetry]. *)
Definition isTransient (status : Z) : bool :=
  (status =? 429) || (status =? 500) || (status =? 503) || (status =? 504).

(** The body of the [for] loop of [httpDoRetry] at attempt [i]:
    [Some r] when the function returns [r] from inside the loop, [None]
    when control reaches the end of the body and the loop goes on to
    [i++]. *)
Definition httpDoRetry_attempt (a : api) (ctx : Context) (req : Request) (i : nat)
  : M (option (result Response)) :=
  r <- client_Do a req ;;
  match r with
  | Err err => Return (Some (Err err))
  | Ok resp =>
      if isTransient (StatusCode resp) then
        drainAndCloseHttpResponse resp ;;;
        e <- backOff ctx i ;;
        match e with
        | Some err => Return (Some (Err err))
        | None => Return None
        end
      else Return (Some (Ok resp))
  end.

(** The loop from attempt [i] with [remaining] attempts left
    ([count - i] in the source). *)
Fixpoint httpDoRetry_from (a : api) (ctx : Context) (req : Request)
         (remaining i : nat) : M (result Response) :=
  match remaining with
  | O => Return (Err (Ptr ErrTooManyRetries))
  | S k =>
      o <- httpDoRetry_attempt a ctx req i ;;
      match o with
      | Some r => Return r
      | None => httpDoRetry_from a ctx req k (S i)
      end
  end.

(** [httpDoRetry]; the context is the one the request was built with. *)
Definition httpDoRetry (a : api) (ctx : Context) (req : Request) (count : nat)
  : M (result Response) :=
  httpDoRetry_from a ctx req count 0.

Definition parse400or409 (resp : Response) : M error :=
  d <- json_Decode json_Decode_GenericError (Body resp) ;;
  match snd d with
  | Some err => Return err
  | None =>
      if StatusCode resp =? 400 then Return (newErrBadRequest (fst d))
      else Return (newErrConflict (fst d))
  end.

Definition parse403 (resp : Response) : M error :=
  d <- json_Decode json_Decode_ForbiddenError (Body resp) ;;
  match snd d with
  | Some err => Return err
  | None => Return (newErrForbiden (fst d))
  end.

Definition parseError (resp : Response) : M error :=
  if (StatusCode resp =? 400) || (StatusCode resp =? 409) then parse400or409 resp
  else if StatusCode resp =? 403 then parse403 resp
  else if StatusCode resp =? 404 then Return (Ptr ErrNotFound)
  else Return (newErrHttp (StatusCode resp)).

(** [req.Header.Set]. *)
Definition Header_Set (k v : string) (req : Request) : Request :=
  mkRequest (Method req) (URL req)
            ((k, v) :: filter (fun kv => negb (String.eqb (fst kv) k)) (Header req))
            (ContentLength req).

(** [http.NewRequestWithContext(ctx, method, url, &b)] on a buffer that
    holds [b]: the request reads its body from that buffer and declares
    its length. *)
Definition http_NewRequestWithContext (method url : string) (b : list byte)
  : result Request :=
  match http_NewRequest_check method url with
  | Some msg => Err (RequestError msg)
  | None => Ok (mkRequest method url [] (Z.of_nat (List.length b)))
  end.

(** The three fixed headers [httpDo] sets on the request. *)
Definition httpDo_headers (req : Request) : Request :=
  Header_Set "Content-Type" "application/vnd.api+json"
    (Header_Set "Accept-Encoding" "gzip"
       (Header_Set "Accept" "application/vnd.api+json" req)).

(** The success statuses of the [switch] in [httpDo]. *)
Definition isSuccess (status : Z) : bool :=
  (status =? 200) || (status =? 201) || (status =? 204).

(** The end of [httpDo], from the [switch] on the status to the last
    [return]: the error classifier for a status that is no success, the
    decoding of the body into [res] when there is a destination and the
    status is not 204. *)
Definition httpDo_result (resp : Response) (res : option AccountData)
  : M (option AccountData * option error) :=
  if isSuccess (StatusCode resp) then
    match res with
    | Some v =>
        if negb (StatusCode resp =? 204) then
          d <- json_Decode (fun s => json_Decode_Data s v) (Body resp) ;;
          Return (Some (fst d), snd d)
        else Return (res, None)
    | None => Return (res, None)
    end
  else
    err <- parseError resp ;;
    Return (res, Some err).

(** [httpDo].  [body] is [nil] or the envelope around an account; [res]
    is [nil] or points to an envelope, given by the account in it; the
    account the envelope holds at the end is returned along with the
    error.  The buffer [b] of the source is the request body of the
    world.  The deferred drain runs after the result is computed. *)
Definition httpDo (a : api) (ctx : Context) (method url : string)
           (body res : option AccountData)
  : M (option AccountData * option error) :=
  match json_Encode body with
  | Err err => Return (res, Some err)
  | Ok b =>
      fun w0 =>
      let w := set_reqBody b w0 in
      match http_NewRequestWithContext method url b with
      | Err err => (res, Some err, w)
      | Ok req =>
          (r <- httpDoRetry a ctx (httpDo_headers req) (retryCount a) ;;
           match r with
           | Err err => Return (res, Some err)
           | Ok resp =>
               out <- httpDo_result resp res ;;
               drainAndCloseHttpResponse resp ;;;
               Return out
           end) w
      end
  end.

(** The account in the envelope [ret] after [httpDo]. *)
Definition envelope_Data (ret : option AccountData) : AccountData :=
  match ret with
  | Some d => d
  | None => AccountData_zero
  end.

Definition Create (a : api) (ctx : Context) (data : AccountData)
  : M (AccountData * option error) :=
  r <- httpDo a ctx "POST" (BaseURL ++ "/v1/organisation/accounts")%string
              (Some data) (Some AccountData_zero) ;;
  match snd r with
  | Some err => Return (AccountData_zero, Some err)
  | None => Return (envelope_Data (fst r), None)
  end.

Definition Fetch (a : api) (ctx : Context) (accountID : string)
  : M (AccountData * option error) :=
  r <- httpDo a ctx "GET"
              (BaseURL ++ "/v1/organisation/accounts/" ++ accountID)%string
              None (Some AccountData_zero) ;;
  match snd r with
  | Some err => Return (AccountData_zero, Some err)
  | None => Return (envelope_Data (fst r), None)
  end.

Definition Delete (a : api) (ctx : Context) (accountID : string) (version : Z)
  : M (option error) :=
  r <- httpDo a ctx "DELETE"
              (BaseURL ++ "/v1/organisation/accounts/" ++ accountID
                       ++ "?version="
                       ++ NilZero.string_of_int (Z.to_int version))%string
              None None ;;
  Return (snd r).

Definition WithHttpClient (c : Client) : api -> api :=
  fun a => mkApi c (retryCount a).

Definition WithRetryCount (n : nat) : api -> api :=
  fun a => mkApi (client a) n.

(** [NewAPI], with [http.DefaultClient] given. *)
Definition NewAPI (defaultClient : Client) (options : list (api -> api)) : api :=
  fold_left (fun ret f => f ret) options (mkApi defaultClient DefaultRetryCount).

End Engine.

(** ** Fixtures of the package's tests (api_test.go, backoff_test.go) *)

(** A client whose round tripper answers every request with the same
    status and body and never looks at the request. *)
Definition newClientReturningStatusCodeAndBuffer (statusCode : Z) (rc : list byte)
  : Client :=
  fun _ _ _ => (0%nat, Reply statusCode rc).

Definition newClientReturningStatusCode (statusCode : Z) : Client :=
  newClientReturningStatusCodeAndBuffer statusCode [].

(** [context.Background()] with the immediate timer: never done, every
    sleep ends by the timer's signal. *)
Definition newContextWithImmediateTimer : Context :=
  mkContext (fun _ => TickFirst) (ContextError false).

(** ** Further fixtures for the examples below *)

(** A context cancelled while sleep number [t] is under way. *)
Definition cancelledDuringSleep (t : nat) (raced : bool) : Context :=
  mkContext (fun k => if Nat.eqb k t then DoneFirst raced else TickFirst)
            (ContextError false).

(** A client that, as [http.Transport] does, writes the whole request body
    to the wire, and answers send [i] with [replies i]. *)
Definition wireClient (replies : nat -> RoundTrip) : Client :=
  fun i _ avail => (List.length avail, replies i).

(** A stand-in for the library with decoders that give fixed results.
    [Encode] writes [null] for [nil] and the encoding of the empty account
    otherwise, each followed by a newline, as the Go encoder does. *)
Definition stubLib (g : Decoded GenericError) (f : Decoded ForbiddenError)
           (d : Decoded AccountData) : GoLib :=
  {| int_overflow := fun _ => - 2 ^ 63;
     json_Encode := fun body =>
       match body with
       | None => Ok (list_byte_of_string "null" ++ [x0a])
       | Some _ =>
           Ok ([x7b; x22] ++ list_byte_of_string "Data"
                 ++ [x22; x3a; x7b; x7d; x7d; x0a])
       end;
     json_Decode_GenericError := fun _ => g;
     json_Decode_ForbiddenError := fun _ => f;
     json_Decode_Data := fun _ _ => d;
     http_NewRequest_check := fun _ _ => None |}.

(** A client that answers send [i] with the [i]-th entry of a script and
    never reads the request. *)
Definition scriptedClient (script : list RoundTrip) : Client :=
  fun i _ _ => (0%nat, nth i script (Failed "connection refused")).

(** The library stand-in of the worked examples: error bodies decode to
    the values of the package's tests, the account envelope is cut short
    after its first field. *)
Definition exampleLib : GoLib :=
  stubLib
    (mkDecoded 9 (mkGenericError "Message parsing failed: Unexpected character"
                                 "d0a17902-63ed-4cb6-a8e8-fac5ca31b0b7") None)
    (mkDecoded 9 (mkForbiddenError "invalid_grant" "Wrong email or password.") None)
    (mkDecoded 5 (mkAccountData None "0d209d7f-d07a-4542-947f-5885fddddae2"
                                EmptyString EmptyString None)
               (Some "unexpected EOF")).

(** The request [Fetch] builds for account [foo]. *)
Definition exampleRequest : Request :=
  mkRequest "GET" "http://accountapi:8080/v1/organisation/accounts/foo" [] 5.

(** ** The attempts of a run *)

Section Runs.

Context {lib : GoLib}.
Variables (a : api) (ctx : Context) (req : Request).

(** [Attempts k i w j wj]: the loop entered at attempt [i] in world [w]
    with [k] attempts left begins attempt [j] in world [wj]. *)
Inductive Attempts : nat -> nat -> World -> nat -> World -> Prop :=
| Attempts_first k i w :
    Attempts (S k) i w i w
| Attempts_next k i w w1 j wj :
    httpDoRetry_attempt a ctx req i w = (None, w1) ->
    Attempts k (S i) w1 j wj ->
    Attempts (S k) i w j wj.

End Runs.

(** The transient statuses, as the specification lists them. *)
Definition transient_set : list Z := [429; 500; 503; 504].

(** A client that answers every send with a transient status. *)
Definition always_transient (c : Client) : Prop :=
  forall i req avail, exists st content,
    snd (c i req avail) = Reply st content /\ In st transient_set.

(** A context under which every sleep ends by the timer's signal. *)
Definition never_cancelled (ctx : Context) : Prop :=
  forall t, ctx_select ctx t = TickFirst.

(** The number of sends in a trace. *)
Definition count_sends (tr : list Event) : nat :=
  List.length (filter (fun e => match e with EvSend _ => true | _ => false end) tr).

(** A body that was read to the end and closed once. *)
Definition released (b : body) : Prop := unread b = [] /\ closes b = 1%nat.

(** Whether the float computation of the base gives the exactly rounded
    value at attempt [n], on every platform. *)
Definition base_agrees (n : nat) : bool :=
  match float64_to_int
          (math_Round (float64_mul (math_Pow_1_5 n) (float64_of_Z 500))) with
  | Some d => d =? spec_base n
  | None => false
  end.

(** The world after a decoder took [n] bytes from body [r]. *)
Definition after_decode (n r : nat) (w : World) : World :=
  let b := nth r (bodies w) (mkBody [] 0%nat) in
  emit (EvDecode r)
       (set_bodies (list_set r (mkBody (skipn n (unread b)) (closes b)) (bodies w)) w).

(** What a sleep that resolves as [o] does to timer [t]. *)
Definition sleep_events (t : nat) (o : SelectOutcome) : list Event :=
  match o with
  | TickFirst => [EvTick t]
  | DoneFirst raced => EvStop t (negb raced) :: (if raced then [EvTick t] else [])
  end.

(** The error a sleep that resolves as [o] returns. *)
Definition sleep_result (ctx : Context) (o : SelectOutcome) : option error :=
  match o with
  | TickFirst => None
  | DoneFirst _ => Some (ctx_Err ctx)
  end.


(** ** errors.go: the texts of the errors *)

(** [fmt.Sprintf("%s: %s", a, b)]. *)
Definition Sprintf_colon (a b : string) : string := (a ++ ": " ++ b)%string.

(** [ErrBadRequest.Error] and [ErrConflict.Error], which have the same
    body: the code in front when there is one. *)
Definition ErrBadRequest_Error (e : GenericError) : string :=
  if Nat.ltb 0 (String.length (ErrorCode e))
  then Sprintf_colon (ErrorCode e) (ErrorMessage e)
  else ErrorMessage e.

Definition ErrConflict_Error (e : GenericError) : string :=
  if Nat.ltb 0 (String.length (ErrorCode e))
  then Sprintf_colon (ErrorCode e) (ErrorMessage e)
  else ErrorMessage e.

Definition ErrForbidden_Error (e : ForbiddenError) : string :=
  if Nat.ltb 0 (String.length (Error e))
  then Sprintf_colon (Error e) (ErrorDescription e)
  else ErrorDescription e.

Definition ErrNotFound_Error : string := "not found".
Definition ErrTooManyRetries_Error : string := "too many retries".

(** The zero values [GenericError{}] and [ForbiddenError{}], which
    [new(ErrBadRequest)], [new(ErrConflict)] and [new(ErrForbidden)] hold. *)
Definition GenericError_zero : GenericError := mkGenericError EmptyString EmptyString.
Definition ForbiddenError_zero : ForbiddenError :=
  mkForbiddenError EmptyString EmptyString.

(** ** backoff.go: the timer factory in the context *)

Section TimerFactory.

(** The type of timer factories other than [nil]. *)
Variable Factory : Type.

(** A [newTimerFunc]: [nil] or a factory. *)
Definition newTimerFunc := option Factory.

(** Keys of context values: the package's key [ctxNewTimer{}], which has a
    type of its own, and the keys of everybody else. *)
Inductive ctxKey :=
| ctxNewTimer
| foreignKey (name : string).

Definition ctxKey_eqb (k1 k2 : ctxKey) : bool :=
  match k1, k2 with
  | ctxNewTimer, ctxNewTimer => true
  | foreignKey a, foreignKey b => String.eqb a b
  | _, _ => false
  end.

(** An interface value [any] as far as the package tells them apart: the
    nil interface, a [newTimerFunc] (a nil function is still a non-nil
    interface), or a value of another type. *)
Inductive any :=
| anyNil
| anyNewTimerFunc (f : newTimerFunc)
| anyOther (v : string).

(** Contexts by the way they are built: the background, a value added by
    [context.WithValue], or a cancellation or deadline added, which leaves
    the values alone. *)
Inductive valueCtx :=
| ctxBackground
| ctxWithValue (parent : valueCtx) (key : ctxKey) (val : any)
| ctxWithCancel (parent : valueCtx).

(** [ctx.Value(key)]: the value of the nearest [WithValue] for that key. *)
Fixpoint ctx_Value (ctx : valueCtx) (key : ctxKey) : any :=
  match ctx with
  | ctxBackground => anyNil
  | ctxWithValue parent k v => if ctxKey_eqb k key then v else ctx_Value parent key
  | ctxWithCancel parent => ctx_Value parent key
  end.

Definition withNewTimer (ctx : valueCtx) (f : newTimerFunc) : valueCtx :=
  ctxWithValue ctx ctxNewTimer (anyNewTimerFunc f).

(** [mustGetNewTimer]: the factory stored in the context, else [newTimer],
    here [dflt]; [None] when the type assertion panics. *)
Definition mustGetNewTimer (dflt : Factory) (ctx : valueCtx) : option newTimerFunc :=
  match ctx_Value ctx ctxNewTimer with
  | anyNil => Some (Some dflt)
  | anyNewTimerFunc f => Some f
  | anyOther _ => None
  end.

(** Contexts in which nobody but [withNewTimer] has used the package's
    key. *)
Fixpoint only_withNewTimer (ctx : valueCtx) : Prop :=
  match ctx with
  | ctxBackground => True
  | ctxWithValue parent ctxNewTimer v =>
      (exists f, v = anyNewTimerFunc f) /\ only_withNewTimer parent
  | ctxWithValue parent (foreignKey _) _ => only_withNewTimer parent
  | ctxWithCancel parent => only_withNewTimer parent
  end.

End TimerFactory.

Arguments ctxBackground {Factory}.
Arguments ctxWithValue {Factory} parent key val.
Arguments ctxWithCancel {Factory} parent.
Arguments anyNil {Factory}.
Arguments anyNewTimerFunc {Factory} f.
Arguments anyOther {Factory} v.
Arguments ctx_Value {Factory} ctx key.
Arguments withNewTimer {Factory} ctx f.
Arguments mustGetNewTimer {Factory} dflt ctx.
Arguments only_withNewTimer {Factory} ctx.

(** ** backoff_test.go: the table of [TestBackOff] *)

(** Attempt and expected delay in milliseconds. *)
Definition TestBackOff_table : list (nat * Z) :=
  [(0%nat, 500); (1%nat, 750); (2%nat, 1125); (3%nat, 1688); (4%nat, 2531);
   (5%nat, 3797); (6%nat, 5695); (7%nat, 8543); (8%nat, 12814); (9%nat, 19222)].

(** The tolerance of the test, [backOffJitterMs * time.Millisecond]. *)
Definition TestBackOff_tolerance : Z := backOffJitterMs * Millisecond.

(** ** Reading traces *)

(** The durations asked of the timer factory, in order. *)
Fixpoint timer_durations (tr : list Event) : list Z :=
  match tr with
  | [] => []
  | EvNewTimer d :: rest => d :: timer_durations rest
  | _ :: rest => timer_durations rest
  end.

(** Whether a trace has a decoder reading a body. *)
Definition has_decode (tr : list Event) : bool :=
  existsb (fun e => match e with EvDecode _ => true | _ => false end) tr.

(** [w'] differs from [w] in response bodies and in events other than
    sends and timers only. *)
Definition only_bodies_touched (w w' : World) : Prop :=
  reqBody w' = reqBody w /\ sent w' = sent w /\ timers w' = timers w /\
  draws w' = draws w /\ rand_src w' = rand_src w /\
  count_sends (trace w') = count_sends (trace w) /\
  timer_durations (trace w') = timer_durations (trace w).

(** The statuses [httpDo] and the classifier have a case for. *)
Definition handled_statuses : list Z := [200; 201; 204; 400; 409; 403; 404].


(** [req.Header.Values(k)]: the values of header [k], in order. *)
Definition Header_Values (k : string) (req : Request) : list string :=
  map snd (filter (fun kv => String.eqb (fst kv) k) (Header req)).

(** * Verification *)

(** ** Error matching *)

Lemma eqb_or_empty (x y : string) :
  (String.eqb x y || String.eqb y EmptyString) = true <-> field_matches x y.
Proof.
  unfold field_matches.
  rewrite orb_true_iff, !String.eqb_eq. reflexivity.
Qed.

Lemma isSameGenericError_iff (a b : GenericError) :
  isSameGenericError a b = true <->
  field_matches (ErrorCode a) (ErrorCode b) /\
  field_matches (ErrorMessage a) (ErrorMessage b).
Proof.
  unfold isSameGenericError.
  rewrite andb_true_iff, !eqb_or_empty. reflexivity.
Qed.

Lemma isSameForbiddenError_iff (a b : ForbiddenError) :
  isSameForbiddenError a b = true <->
  field_matches (Error a) (Error b) /\
  field_matches (ErrorDescription a) (ErrorDescription b).
Proof.
  unfold isSameForbiddenError.
  rewrite andb_true_iff, !eqb_or_empty. reflexivity.
Qed.

(** C8.  For bad-request, conflict and forbidden errors, [a.Is(target)]
    holds exactly when the target is a pointer of the same error type and
    each of the two detail fields of the target is equal to the field of
    [a] or empty; a target of another type never matches, whatever its
    fields, so that a match through the method [Is] puts both errors in
    the same kind. *)
Theorem Is_same_kind_and_wildcard_fields :
  (forall (a : GenericError) (target : error),
      ErrBadRequest_Is a target = true <->
      exists t, target = Ptr (ErrBadRequest t) /\
                field_matches (ErrorCode a) (ErrorCode t) /\
                field_matches (ErrorMessage a) (ErrorMessage t)) /\
  (forall (a : GenericError) (target : error),
      ErrConflict_Is a target = true <->
      exists t, target = Ptr (ErrConflict t) /\
                field_matches (ErrorCode a) (ErrorCode t) /\
                field_matches (ErrorMessage a) (ErrorMessage t)) /\
  (forall (a : ForbiddenError) (target : error),
      ErrForbidden_Is a target = true <->
      exists t, target = Ptr (ErrForbidden t) /\
                field_matches (Error a) (Error t) /\
                field_matches (ErrorDescription a) (ErrorDescription t)) /\
  (forall (g : GenericError),
      ErrBadRequest_Is g (Ptr (ErrConflict g)) = false /\
      ErrConflict_Is g (Ptr (ErrBadRequest g)) = false /\
      ErrBadRequest_Is g (Val (ErrBadRequest g)) = false /\
      ErrConflict_Is g (Val (ErrConflict g)) = false) /\
  (forall (f : ForbiddenError),
      ErrForbidden_Is f (Val (ErrForbidden f)) = false /\
      ErrForbidden_Is f
        (Ptr (ErrBadRequest (mkGenericError (ErrorDescription f) (Error f)))) = false) /\
  (forall (a target : error),
      Is a target = Some true ->
      (exists g t, a = Ptr (ErrBadRequest g) /\ target = Ptr (ErrBadRequest t)) \/
      (exists g t, a = Ptr (ErrConflict g) /\ target = Ptr (ErrConflict t)) \/
      (exists f t, a = Ptr (ErrForbidden f) /\ target = Ptr (ErrForbidden t))).
Proof.
  assert (Hkind : forall a target : error,
             Is a target = Some true ->
             (exists g t, a = Ptr (ErrBadRequest g) /\ target = Ptr (ErrBadRequest t)) \/
             (exists g t, a = Ptr (ErrConflict g) /\ target = Ptr (ErrConflict t)) \/
             (exists f t, a = Ptr (ErrForbidden f) /\ target = Ptr (ErrForbidden t))).
  { intros a target H.
    destruct a as [[]| | | | |]; simpl in H; try discriminate;
      destruct target as [[]| | | | |]; simpl in H; try discriminate; eauto 6. }
  split; [|split; [|split; [|split; [|split; [|exact Hkind]]]]];
    repeat split; intros; try reflexivity.
  - destruct target as [[]| | | | |]; simpl in H; try discriminate.
    exists g. split; [reflexivity|]. now apply isSameGenericError_iff.
  - destruct H as (t & -> & Hc & Hm). simpl.
    apply isSameGenericError_iff. now split.
  - destruct target as [[]| | | | |]; simpl in H; try discriminate.
    exists g. split; [reflexivity|]. now apply isSameGenericError_iff.
  - destruct H as (t & -> & Hc & Hm). simpl.
    apply isSameGenericError_iff. now split.
  - destruct target as [[]| | | | |]; simpl in H; try discriminate.
    exists f. split; [reflexivity|]. now apply isSameForbiddenError_iff.
  - destruct H as (t & -> & Hc & Hm). simpl.
    apply isSameForbiddenError_iff. now split.
Qed.

(** ** The backoff delay *)

Lemma wrap64_id (z : Z) : - 2 ^ 63 <= z < 2 ^ 63 -> wrap64 z = z.
Proof.
  intros H. unfold wrap64.
  rewrite Z.mod_small by lia. lia.
Qed.

Lemma wrap64_over (z : Z) : 2 ^ 63 <= z < 2 ^ 63 + 2 ^ 64 -> wrap64 z = z - 2 ^ 64.
Proof.
  intros H. unfold wrap64.
  replace (z + 2 ^ 63) with ((z + 2 ^ 63 - 2 ^ 64) + 1 * 2 ^ 64) by lia.
  rewrite Z.mod_add by lia.
  rewrite Z.mod_small by lia. lia.
Qed.

Lemma rand_Intn_range (raw n : Z) : 0 < n -> 0 <= rand_Intn raw n < n.
Proof. intros H. unfold rand_Intn. now apply Z.mod_pos_bound. Qed.

(** The jitter added to the base: between -50 and 49 milliseconds. *)
Lemma jitter_range (raw : Z) :
  let j := int_sub (rand_Intn raw backOffJitterMs) (Z.quot backOffJitterMs 2) in
  j = raw mod 100 - 50 /\ - 50 <= j <= 49.
Proof.
  cbv zeta. unfold int_sub, backOffJitterMs.
  change (Z.quot 100 2) with 50.
  pose proof (rand_Intn_range raw 100 ltac:(lia)) as Hr.
  unfold rand_Intn in *.
  rewrite wrap64_id by lia. lia.
Qed.

Lemma base_agrees_upto_72 : forallb base_agrees (seq 0 73) = true.
Proof. vm_compute. reflexivity. Qed.

Lemma spec_base_bounds_upto_58 :
  forallb (fun n => (500 <=? spec_base n) && (spec_base n <=? 8170770825985))
          (seq 0 59) = true.
Proof. vm_compute. reflexivity. Qed.

(** Lines 76 and 77 of backoff.go on any base within a second of
    [500 * 1.5^59] milliseconds: the product with [time.Millisecond] wraps
    to a negative duration.  The last bits of [math.Pow] do not matter. *)
Lemma duration_wraps_near_59 (d raw : Z) :
  12256156238978 - 1000 <= d <= 12256156238978 + 1000 ->
  int_mul (max minBackOffMs
               (int_add d (int_sub (rand_Intn raw backOffJitterMs)
                                   (Z.quot backOffJitterMs 2))))
          Millisecond < 0.
Proof.
  intros Hd.
  pose proof (jitter_range raw) as [Hj Hjr]. cbv zeta in Hj, Hjr.
  rewrite Hj in *. unfold int_add. rewrite wrap64_id by lia.
  unfold max, minBackOffMs, int_mul, Millisecond.
  destruct (Z.gtb_spec 100 (d + (raw mod 100 - 50))); [lia|].
  rewrite wrap64_over by lia. lia.
Qed.

(** [spec_base n] is within half a millisecond of [500 * 1.5^n]. *)
Lemma spec_base_round (n : nat) :
  1000 * 3 ^ Z.of_nat n - 2 ^ Z.of_nat n
  < 2 * spec_base n * 2 ^ Z.of_nat n
  <= 1000 * 3 ^ Z.of_nat n + 2 ^ Z.of_nat n.
Proof.
  unfold spec_base.
  set (p := 2 ^ Z.of_nat n).
  assert (Hp : 0 < p) by (apply Z.pow_pos_nonneg; lia).
  replace (2 ^ (Z.of_nat n + 1)) with (2 * p)
    by (unfold p; rewrite Z.pow_add_r by lia; lia).
  set (x := 1000 * 3 ^ Z.of_nat n + p).
  pose proof (Z.div_mod x (2 * p) ltac:(lia)) as Hd.
  pose proof (Z.mod_pos_bound x (2 * p) ltac:(lia)) as Hm.
  nia.
Qed.

Section BackOffFacts.

Context {lib : GoLib}.

Lemma backOff_base_upto_72 (n : nat) :
  (n <= 72)%nat -> backOff_base n = spec_base n.
Proof.
  intros Hn.
  pose proof base_agrees_upto_72 as H.
  rewrite forallb_forall in H.
  specialize (H n). unfold base_agrees in H. unfold backOff_base.
  destruct (float64_to_int _).
  - apply Z.eqb_eq, H, in_seq. lia.
  - discriminate H. apply in_seq. lia.
Qed.

(** For attempts 0 to 58 the delay requested from the timer is what the
    specification says: [max(100ms, round(500ms * 1.5^n) + jitter)] with a
    jitter between -50ms and 49ms; it is at least 100ms and within 150ms
    of [500ms * 1.5^n] (the bounds are multiplied by [2^n] to stay in the
    integers). *)
Lemma backOff_delay_upto_58 (n : nat) (raw : Z) :
  (n <= 58)%nat ->
  let j := raw mod 100 - 50 in
  backOff_ms n raw = spec_delay_ms n j /\
  backOff_duration n raw = backOff_ms n raw * Millisecond /\
  - 50 <= j <= 49 /\
  100 <= backOff_ms n raw /\
  (500 * 3 ^ Z.of_nat n - 150 * 2 ^ Z.of_nat n
     <= backOff_ms n raw * 2 ^ Z.of_nat n \/ backOff_ms n raw = 100) /\
  backOff_ms n raw * 2 ^ Z.of_nat n
     <= 500 * 3 ^ Z.of_nat n + 150 * 2 ^ Z.of_nat n.
Proof.
  intros Hn j.
  pose proof (jitter_range raw) as [Hj Hjr]. cbv zeta in Hj, Hjr.
  pose proof spec_base_bounds_upto_58 as Hb.
  rewrite forallb_forall in Hb.
  specialize (Hb n ltac:(apply in_seq; lia)).
  apply andb_true_iff in Hb. destruct Hb as [Hlo Hhi].
  apply Z.leb_le in Hlo, Hhi.
  pose proof (spec_base_round n) as Hr.
  assert (Hp : 0 < 2 ^ Z.of_nat n) by (apply Z.pow_pos_nonneg; lia).
  assert (Hms : backOff_ms n raw = spec_delay_ms n j).
  { unfold backOff_ms, spec_delay_ms.
    rewrite backOff_base_upto_72 by lia.
    rewrite Hj. fold j. unfold int_add.
    rewrite wrap64_id by lia.
    unfold max, minBackOffMs.
    destruct (Z.gtb_spec 100 (spec_base n + j)); lia. }
  assert (Hjj : - 50 <= j <= 49) by (unfold j; lia).
  rewrite Hms. unfold backOff_duration. rewrite Hms.
  unfold spec_delay_ms, int_mul, Millisecond.
  repeat split; try lia.
  - rewrite wrap64_id by lia. reflexivity.
  - destruct (Z.max_spec 100 (spec_base n + j)) as [[? ->]|[? ->]];
      [left; nia | right; reflexivity].
  - destruct (Z.max_spec 100 (spec_base n + j)) as [[? ->]|[? ->]]; nia.
Qed.

(** The bases the package's test [TestBackOff] expects for attempts 0
    to 9. *)
Lemma backOff_base_test_table :
  map backOff_base (seq 0 10)
  = [500; 750; 1125; 1688; 2531; 3797; 5695; 8543; 12814; 19222].
Proof.
  transitivity (map spec_base (seq 0 10)); [|vm_compute; reflexivity].
  apply map_ext_in.
  intros n Hn. apply backOff_base_upto_72. apply in_seq in Hn. lia.
Qed.

Lemma backOff_base_59 : backOff_base 59 = 12256156238978.
Proof. rewrite backOff_base_upto_72 by lia. vm_compute. reflexivity. Qed.

(** C3.  At attempt 59 the delay computed in milliseconds is still the
    specified one, [round(500 * 1.5^59) + jitter], but its conversion to
    nanoseconds leaves the 64 bits of [time.Duration]: for every jitter
    draw the duration handed to the timer is negative, below the 100ms
    floor. *)
Theorem backOff_duration_59_negative (raw : Z) :
  backOff_ms 59 raw = spec_delay_ms 59 (raw mod 100 - 50) /\
  backOff_duration 59 raw
    = (12256156238978 + (raw mod 100 - 50)) * 1000000 - 2 ^ 64 /\
  backOff_duration 59 raw < 0.
Proof.
  pose proof (jitter_range raw) as [Hj Hjr]. cbv zeta in Hj, Hjr.
  assert (Hms : backOff_ms 59 raw = 12256156238978 + (raw mod 100 - 50)).
  { unfold backOff_ms. rewrite backOff_base_59, Hj.
    unfold int_add. rewrite wrap64_id by lia.
    unfold max, minBackOffMs.
    destruct (Z.gtb_spec 100 (12256156238978 + (raw mod 100 - 50))); lia. }
  assert (Hsp : spec_base 59 = 12256156238978) by (vm_compute; reflexivity).
  assert (Hd : backOff_duration 59 raw
               = (12256156238978 + (raw mod 100 - 50)) * 1000000 - 2 ^ 64).
  { unfold backOff_duration, int_mul, Millisecond. rewrite Hms.
    rewrite wrap64_over by lia. reflexivity. }
  repeat split.
  - rewrite Hms. unfold spec_delay_ms. rewrite Hsp. lia.
  - exact Hd.
  - rewrite Hd. lia.
Qed.

End BackOffFacts.

(** ** Lists and worlds *)

Lemma list_set_last {A} (l : list A) (x y : A) :
  list_set (List.length l) x (l ++ [y]) = l ++ [x].
Proof. induction l as [|h t IH]; simpl; [reflexivity | now rewrite IH]. Qed.

Lemma nth_error_last {A} (l : list A) (y : A) :
  nth_error (l ++ [y]) (List.length l) = Some y.
Proof. induction l as [|h t IH]; simpl; [reflexivity | exact IH]. Qed.

Lemma nth_last {A} (l : list A) (y d : A) :
  nth (List.length l) (l ++ [y]) d = y.
Proof. induction l as [|h t IH]; simpl; [reflexivity | exact IH]. Qed.

Lemma app_one_two {A} (l : list A) (x y : A) : (l ++ [x]) ++ [y] = l ++ [x; y].
Proof. now rewrite <- app_assoc. Qed.

(** ** The sleep *)

(** Whatever way the [select] resolves, the sleep leaves its timer at rest:
    the signal of a tick is received, a cancelled sleep stops the timer and,
    if the timer had expired meanwhile, takes the waiting signal out of the
    channel. *)
Lemma sleepContext_spec (ctx : Context) (d : Z) (w : World) :
  let t := List.length (timers w) in
  let o := ctx_select ctx t in
  sleepContext ctx d w =
  (sleep_result ctx o,
   mkWorld (reqBody w) (sent w) (bodies w) (timers w ++ [Idle]) (rand_src w)
           (draws w) (trace w ++ EvNewTimer d :: sleep_events t o)).
Proof.
  cbv zeta. unfold sleepContext, bind, newTimer. simpl.
  destruct (ctx_select ctx (List.length (timers w))) as [|[|]];
    unfold timer_expire, timer_receive, timer_Stop, Return, emit, set_timers;
    simpl; rewrite ?list_set_last, ?nth_last; simpl;
    rewrite ?list_set_last, ?nth_last; simpl;
    rewrite <- ?app_assoc; reflexivity.
Qed.

(** ** One attempt *)

Section AttemptFacts.

Context {lib : GoLib}.
Variables (a : api) (ctx : Context) (req : Request).

(** The world after the send of an attempt: the request went out with
    the bytes its buffer held, the client took [n] of them. *)
Lemma client_Do_spec (w : World) :
  let s := List.length (sent w) in
  client_Do a req w =
  match client a s req (reqBody w) with
  | (n, Failed msg) =>
      (Err (TransportError msg),
       mkWorld (skipn n (reqBody w)) (sent w ++ [reqBody w]) (bodies w)
               (timers w) (rand_src w) (draws w) (trace w ++ [EvSend s]))
  | (n, Reply st c) =>
      (Ok (mkResponse st (List.length (bodies w))),
       mkWorld (skipn n (reqBody w)) (sent w ++ [reqBody w])
               (bodies w ++ [mkBody c 0%nat])
               (timers w) (rand_src w) (draws w) (trace w ++ [EvSend s]))
  end.
Proof.
  cbv zeta. unfold client_Do.
  destruct (client a (List.length (sent w)) req (reqBody w)) as [n [msg|st c]];
    reflexivity.
Qed.

(** Draining and closing the body that was received last. *)
Lemma drainAndClose_last (st : Z) (w : World) (bs : list body) (c : list byte)
      (k : nat) :
  bodies w = bs ++ [mkBody c k] ->
  drainAndCloseHttpResponse (mkResponse st (List.length bs)) w =
  (tt, mkWorld (reqBody w) (sent w) (bs ++ [mkBody [] (S k)]) (timers w)
               (rand_src w) (draws w)
               (trace w ++ [EvDrain (List.length bs); EvClose (List.length bs)])).
Proof.
  intros Hb.
  unfold drainAndCloseHttpResponse, bind, io_Copy_Discard, Body_Close. simpl.
  rewrite Hb, nth_error_last. simpl.
  rewrite list_set_last, nth_error_last. simpl.
  rewrite list_set_last. unfold emit, set_bodies. simpl.
  rewrite app_one_two. reflexivity.
Qed.

Lemma backOff_spec (n : nat) (w : World) :
  let t := List.length (timers w) in
  let o := ctx_select ctx t in
  backOff ctx n w =
  (sleep_result ctx o,
   mkWorld (reqBody w) (sent w) (bodies w) (timers w ++ [Idle]) (rand_src w)
           (S (draws w))
           (trace w ++ EvNewTimer (backOff_duration n (rand_src w (draws w)))
                    :: sleep_events t o)).
Proof.
  cbv zeta. unfold backOff, bind, rand_next.
  rewrite sleepContext_spec. reflexivity.
Qed.

(** Everything an attempt can do, by what the client answers and how the
    sleep resolves. *)
Lemma httpDoRetry_attempt_spec (i : nat) (w : World) :
  let s := List.length (sent w) in
  let b := List.length (bodies w) in
  let t := List.length (timers w) in
  let o := ctx_select ctx t in
  httpDoRetry_attempt a ctx req i w =
  match client a s req (reqBody w) with
  | (n, Failed msg) =>
      (Some (Err (TransportError msg)),
       mkWorld (skipn n (reqBody w)) (sent w ++ [reqBody w]) (bodies w)
               (timers w) (rand_src w) (draws w) (trace w ++ [EvSend s]))
  | (n, Reply st c) =>
      if isTransient st then
        (option_map Err (sleep_result ctx o),
         mkWorld (skipn n (reqBody w)) (sent w ++ [reqBody w])
                 (bodies w ++ [mkBody [] 1%nat])
                 (timers w ++ [Idle]) (rand_src w) (S (draws w))
                 (trace w ++ [EvSend s; EvDrain b; EvClose b;
                              EvNewTimer (backOff_duration i (rand_src w (draws w)))]
                          ++ sleep_events t o))
      else
        (Some (Ok (mkResponse st b)),
         mkWorld (skipn n (reqBody w)) (sent w ++ [reqBody w])
                 (bodies w ++ [mkBody c 0%nat])
                 (timers w) (rand_src w) (draws w) (trace w ++ [EvSend s]))
  end.
Proof.
  cbv zeta. unfold httpDoRetry_attempt, bind.
  rewrite client_Do_spec.
  destruct (client a (List.length (sent w)) req (reqBody w)) as [n [msg|st c]];
    [reflexivity|].
  cbn [StatusCode].
  destruct (isTransient st); [|reflexivity].
  erewrite drainAndClose_last by reflexivity.
  rewrite backOff_spec. cbn [timers rand_src draws trace reqBody sent bodies].
  rewrite <- !app_assoc. cbn [app].
  destruct (ctx_select ctx (List.length (timers w))); reflexivity.
Qed.

Lemma isTransient_iff (st : Z) : isTransient st = true <-> In st transient_set.
Proof.
  unfold isTransient, transient_set. simpl.
  rewrite !orb_true_iff, !Z.eqb_eq. intuition congruence.
Qed.

(** *** Runs *)

(** The attempt at which the loop returns decides the outcome of the
    whole run. *)
Lemma Attempts_stop (k i : nat) (w : World) (j : nat) (wj : World)
      (r : result Response) (w' : World) :
  Attempts a ctx req k i w j wj ->
  httpDoRetry_attempt a ctx req j wj = (Some r, w') ->
  httpDoRetry_from a ctx req k i w = (r, w').
Proof.
  induction 1 as [k i w | k i w w1 j wj Hstep Hrest IH]; intros Hlast.
  - simpl. unfold bind. rewrite Hlast. reflexivity.
  - simpl. unfold bind. rewrite Hstep. now apply IH.
Qed.

End AttemptFacts.

(** ** The error classifier *)

Section ClassifierFacts.

Context {lib : GoLib}.

Lemma json_Decode_spec {T} (dec : list byte -> Decoded T) (r : nat) (w : World) :
  let d := dec (unread (nth r (bodies w) (mkBody [] 0%nat))) in
  json_Decode dec r w =
  ((dec_value d, option_map JsonError (dec_err d)), after_decode (dec_read d) r w).
Proof. reflexivity. Qed.

Lemma parse400or409_spec (resp : Response) (w : World) :
  let d := json_Decode_GenericError
             (unread (nth (Body resp) (bodies w) (mkBody [] 0%nat))) in
  parse400or409 resp w =
  (match dec_err d with
   | Some msg => JsonError msg
   | None => if StatusCode resp =? 400 then Ptr (ErrBadRequest (dec_value d))
             else Ptr (ErrConflict (dec_value d))
   end, after_decode (dec_read d) (Body resp) w).
Proof.
  cbv zeta. unfold parse400or409, bind. rewrite json_Decode_spec. cbn [fst snd].
  destruct (dec_err _); cbn [option_map]; [reflexivity|].
  destruct (StatusCode resp =? 400); reflexivity.
Qed.

Lemma parse403_spec (resp : Response) (w : World) :
  let d := json_Decode_ForbiddenError
             (unread (nth (Body resp) (bodies w) (mkBody [] 0%nat))) in
  parse403 resp w =
  (match dec_err d with
   | Some msg => JsonError msg
   | None => Ptr (ErrForbidden (dec_value d))
   end, after_decode (dec_read d) (Body resp) w).
Proof.
  cbv zeta. unfold parse403, bind. rewrite json_Decode_spec. cbn [fst snd].
  destruct (dec_err _); reflexivity.
Qed.

(** C5.  The classifier gives one error per response, by status code:
    400 gives bad-request and 409 conflict, each with the decoded
    [GenericError]; 403 gives forbidden with the decoded [ForbiddenError];
    a body that does not decode gives the decoder's error instead, which
    is none of the package's error types; 404 gives not-found and any
    other status the HTTP error with that status, both without touching
    the body. *)
Theorem parseError_by_status (resp : Response) (w : World) :
  let b := nth (Body resp) (bodies w) (mkBody [] 0%nat) in
  let g := json_Decode_GenericError (unread b) in
  let f := json_Decode_ForbiddenError (unread b) in
  let e := fst (parseError resp w) in
  (StatusCode resp = 400 ->
   e = match dec_err g with
       | Some msg => JsonError msg
       | None => Ptr (ErrBadRequest (dec_value g))
       end) /\
  (StatusCode resp = 409 ->
   e = match dec_err g with
       | Some msg => JsonError msg
       | None => Ptr (ErrConflict (dec_value g))
       end) /\
  (StatusCode resp = 403 ->
   e = match dec_err f with
       | Some msg => JsonError msg
       | None => Ptr (ErrForbidden (dec_value f))
       end) /\
  (StatusCode resp = 404 -> parseError resp w = (Ptr ErrNotFound, w)) /\
  (~ In (StatusCode resp) [400; 409; 403; 404] ->
   parseError resp w = (Ptr (ErrHttp (StatusCode resp)), w)) /\
  (forall msg s, JsonError msg <> Ptr s).
Proof.
  cbv zeta. unfold parseError.
  repeat split.
  - intros H. rewrite H. cbn [Z.eqb orb Pos.eqb]. rewrite parse400or409_spec.
    cbn [fst]. destruct (dec_err _); [reflexivity|]. now rewrite H.
  - intros H. rewrite H. cbn [Z.eqb orb Pos.eqb]. rewrite parse400or409_spec.
    cbn [fst]. destruct (dec_err _); [reflexivity|]. now rewrite H.
  - intros H. rewrite H. cbn [Z.eqb orb Pos.eqb]. rewrite parse403_spec.
    reflexivity.
  - intros H. rewrite H. reflexivity.
  - intros H. simpl in H.
    destruct (Z.eqb_spec (StatusCode resp) 400) as [E|_];
      [exfalso; apply H; rewrite E; tauto|].
    destruct (Z.eqb_spec (StatusCode resp) 409) as [E|_];
      [exfalso; apply H; rewrite E; tauto|].
    destruct (Z.eqb_spec (StatusCode resp) 403) as [E|_];
      [exfalso; apply H; rewrite E; tauto|].
    destruct (Z.eqb_spec (StatusCode resp) 404) as [E|_];
      [exfalso; apply H; rewrite E; tauto|].
    reflexivity.
  - discriminate.
Qed.

End ClassifierFacts.

(** ** The retry loop, attempt by attempt *)

Section LoopFacts.

Context {lib : GoLib}.
Variables (a : api) (ctx : Context) (req : Request).

(** C7.  In any run of the retry loop, with any number of attempts
    allowed, an attempt whose send fails in the transport ends the run:
    the loop returns that very error, and the world it leaves is the one
    in which the attempt began plus this one send; no drain, no sleep and
    no further send follow. *)
Theorem transport_failure_ends_run (count : nat) (w : World) (j : nat)
        (wj : World) (n : nat) (msg : string) :
  Attempts a ctx req count 0 w j wj ->
  client a (List.length (sent wj)) req (reqBody wj) = (n, Failed msg) ->
  httpDoRetry a ctx req count w =
  (Err (TransportError msg),
   mkWorld (skipn n (reqBody wj)) (sent wj ++ [reqBody wj]) (bodies wj)
           (timers wj) (rand_src wj) (draws wj)
           (trace wj ++ [EvSend (List.length (sent wj))])).
Proof.
  intros Hrun Hsend. unfold httpDoRetry.
  apply (Attempts_stop a ctx req _ _ _ _ _ _ _ Hrun).
  rewrite httpDoRetry_attempt_spec. cbv zeta. rewrite Hsend. reflexivity.
Qed.

(** C4.  The statuses the loop retries are exactly 429, 500, 503 and 504.
    In any run, an attempt answered with one of them drains and closes
    that response and then asks for a timer with the backoff delay of
    the attempt; an attempt answered with any other status ends the run,
    which returns that response with its body unread and not closed, and
    nothing is sent after it. *)
Theorem retries_exactly_the_transient_statuses (count : nat) (w : World)
        (j : nat) (wj : World) (n : nat) (st : Z) (c : list byte) :
  Attempts a ctx req count 0 w j wj ->
  client a (List.length (sent wj)) req (reqBody wj) = (n, Reply st c) ->
  let s := List.length (sent wj) in
  let b := List.length (bodies wj) in
  let t := List.length (timers wj) in
  (isTransient st = true <-> In st transient_set) /\
  (In st transient_set ->
   httpDoRetry_attempt a ctx req j wj =
   (option_map Err (sleep_result ctx (ctx_select ctx t)),
    mkWorld (skipn n (reqBody wj)) (sent wj ++ [reqBody wj])
            (bodies wj ++ [mkBody [] 1%nat])
            (timers wj ++ [Idle]) (rand_src wj) (S (draws wj))
            (trace wj ++ [EvSend s; EvDrain b; EvClose b;
                          EvNewTimer (backOff_duration j (rand_src wj (draws wj)))]
                      ++ sleep_events t (ctx_select ctx t)))) /\
  (~ In st transient_set ->
   httpDoRetry a ctx req count w =
   (Ok (mkResponse st b),
    mkWorld (skipn n (reqBody wj)) (sent wj ++ [reqBody wj])
            (bodies wj ++ [mkBody c 0%nat])
            (timers wj) (rand_src wj) (draws wj) (trace wj ++ [EvSend s]))).
Proof.
  intros Hrun Hsend s b t.
  split; [apply isTransient_iff|]. split; intros Hst.
  - rewrite httpDoRetry_attempt_spec. cbv zeta. rewrite Hsend.
    apply isTransient_iff in Hst. rewrite Hst. reflexivity.
  - unfold httpDoRetry.
    apply (Attempts_stop a ctx req _ _ _ _ _ _ _ Hrun).
    rewrite httpDoRetry_attempt_spec. cbv zeta. rewrite Hsend.
    destruct (isTransient st) eqn:E; [|reflexivity].
    apply isTransient_iff in E. contradiction.
Qed.

(** In the loop: an attempt whose backoff sleep sees the
    context done ends the run with the context's error. *)
Lemma cancelled_sleep_ends_run (count : nat) (w : World) (j : nat) (wj : World)
      (n : nat) (st : Z) (c : list byte) (raced : bool) :
  Attempts a ctx req count 0 w j wj ->
  client a (List.length (sent wj)) req (reqBody wj) = (n, Reply st c) ->
  isTransient st = true ->
  ctx_select ctx (List.length (timers wj)) = DoneFirst raced ->
  let s := List.length (sent wj) in
  let b := List.length (bodies wj) in
  let t := List.length (timers wj) in
  httpDoRetry a ctx req count w =
  (Err (ctx_Err ctx),
   mkWorld (skipn n (reqBody wj)) (sent wj ++ [reqBody wj])
           (bodies wj ++ [mkBody [] 1%nat])
           (timers wj ++ [Idle]) (rand_src wj) (S (draws wj))
           (trace wj ++ [EvSend s; EvDrain b; EvClose b;
                         EvNewTimer (backOff_duration j (rand_src wj (draws wj)));
                         EvStop t (negb raced)]
                     ++ (if raced then [EvTick t] else []))).
Proof.
  intros Hrun Hsend Hst Hsel s b t. unfold httpDoRetry.
  apply (Attempts_stop a ctx req _ _ _ _ _ _ _ Hrun).
  rewrite httpDoRetry_attempt_spec. cbv zeta. rewrite Hsend, Hst, Hsel.
  cbn [sleep_result option_map sleep_events]. reflexivity.
Qed.

End LoopFacts.

(** ** Whole runs of the retry loop *)

Lemma count_sends_app (tr tr' : list Event) :
  count_sends (tr ++ tr') = (count_sends tr + count_sends tr')%nat.
Proof. unfold count_sends. now rewrite filter_app, length_app. Qed.

Lemma released_drained : released (mkBody [] 1%nat).
Proof. split; reflexivity. Qed.

Section RunFacts.

Context {lib : GoLib}.
Variables (a : api) (ctx : Context) (req : Request).

(** With a client that always answers with a transient status and no
    sleep cancelled, the loop uses up its attempts: one send each. *)
Lemma exhausted_run :
  always_transient (client a) -> never_cancelled ctx ->
  forall (k i : nat) (w : World),
  exists w',
    httpDoRetry_from a ctx req k i w = (Err (Ptr ErrTooManyRetries), w') /\
    List.length (sent w') = (List.length (sent w) + k)%nat /\
    count_sends (trace w') = (count_sends (trace w) + k)%nat /\
    List.length (timers w') = (List.length (timers w) + k)%nat /\
    exists new, bodies w' = bodies w ++ new /\ List.length new = k /\
                Forall released new.
Proof.
  intros Hc Hs. induction k as [|k IH]; intros i w.
  - exists w. simpl. rewrite !Nat.add_0_r.
    repeat split. exists []. rewrite app_nil_r. repeat split. constructor.
  - simpl. unfold bind. rewrite httpDoRetry_attempt_spec. cbv zeta.
    destruct (Hc (List.length (sent w)) req (reqBody w)) as (st & c & Hr & Hst).
    destruct (client a (List.length (sent w)) req (reqBody w)) as [n out].
    simpl in Hr. subst out.
    apply isTransient_iff in Hst. rewrite Hst, Hs. cbn [sleep_result option_map].
    match goal with |- context [httpDoRetry_from a ctx req k (S i) ?w1] =>
      destruct (IH (S i) w1) as (w' & Hrun & Hsent & Htr & Htm & new & Hb & Hlen & Hrel)
    end.
    exists w'. rewrite Hrun.
    cbn [sent trace timers bodies] in Hsent, Htr, Htm, Hb.
    rewrite length_app in Hsent, Htm. rewrite !count_sends_app in Htr.
    cbn in Hsent, Htm, Htr.
    repeat split; try lia.
    exists (mkBody [] 1%nat :: new). rewrite Hb, <- app_assoc.
    repeat split; cbn; try lia.
    constructor; [apply released_drained | exact Hrel].
Qed.

(** What a run leaves of the response bodies it received: every response
    with a transient status is read to the end and closed once inside the
    loop; the response the loop returns is the last one, unread and not
    closed. *)
Lemma run_bodies (k i : nat) (w : World) :
  match httpDoRetry_from a ctx req k i w with
  | (Err _, w') =>
      exists new, bodies w' = bodies w ++ new /\ Forall released new
  | (Ok resp, w') =>
      exists done c,
        bodies w' = (bodies w ++ done) ++ [mkBody c 0%nat] /\
        Forall released done /\
        Body resp = List.length (bodies w ++ done)
  end.
Proof.
  revert i w. induction k as [|k IH]; intros i w.
  - simpl. exists []. rewrite app_nil_r. split; constructor.
  - simpl. unfold bind. rewrite httpDoRetry_attempt_spec. cbv zeta.
    destruct (client a (List.length (sent w)) req (reqBody w)) as [n [msg|st c]].
    + exists []. rewrite app_nil_r. split; constructor.
    + destruct (isTransient st).
      * destruct (ctx_select ctx (List.length (timers w))) as [|raced];
          cbn [sleep_result option_map].
        -- match goal with |- context [httpDoRetry_from a ctx req k (S i) ?w1] =>
             specialize (IH (S i) w1);
             destruct (httpDoRetry_from a ctx req k (S i) w1) as [[resp|e] w']
           end; cbn [bodies] in IH.
           ++ destruct IH as (done & c' & Hb & Hrel & Hidx).
              exists (mkBody [] 1%nat :: done), c'.
              rewrite Hb, Hidx, <- !app_assoc. cbn [app].
              repeat split. constructor; [apply released_drained | exact Hrel].
           ++ destruct IH as (new & Hb & Hrel).
              exists (mkBody [] 1%nat :: new). rewrite Hb, <- app_assoc.
              split; [reflexivity|].
              constructor; [apply released_drained | exact Hrel].
        -- exists [mkBody [] 1%nat]. split; [reflexivity|].
           constructor; [apply released_drained | constructor].
      * exists [], c. cbn [bodies Body]. rewrite app_nil_r.
        repeat split. constructor.
Qed.

End RunFacts.

(** ** The request executor *)

Lemma after_decode_last (n : nat) (w : World) (bs : list body) (c : list byte)
      (k : nat) :
  bodies w = bs ++ [mkBody c k] ->
  after_decode n (List.length bs) w =
  mkWorld (reqBody w) (sent w) (bs ++ [mkBody (skipn n c) k]) (timers w)
          (rand_src w) (draws w) (trace w ++ [EvDecode (List.length bs)]).
Proof.
  intros Hb. unfold after_decode, emit, set_bodies. simpl.
  rewrite Hb, nth_last, list_set_last. reflexivity.
Qed.

Section ExecutorFacts.

Context {lib : GoLib}.
Variables (a : api) (ctx : Context).

(** [httpDo] once the request is built: the retry loop, then either its
    error as it is, or the result computed from the response followed by
    the deferred drain. *)
Lemma httpDo_unfold (method url : string) (body res : option AccountData)
      (b : list byte) (req0 : Request) (w : World) :
  json_Encode body = Ok b ->
  http_NewRequestWithContext method url b = Ok req0 ->
  httpDo a ctx method url body res w =
  match httpDoRetry a ctx (httpDo_headers req0) (retryCount a) (set_reqBody b w) with
  | (Err e, w') => ((res, Some e), w')
  | (Ok resp, w1) =>
      let (out, w2) := httpDo_result resp res w1 in
      (out, snd (drainAndCloseHttpResponse resp w2))
  end.
Proof.
  intros He Hr. unfold httpDo. rewrite He, Hr. unfold bind.
  destruct (httpDoRetry _ _ _ _ _) as [[resp|e] w1]; [|reflexivity].
  destruct (httpDo_result resp res w1) as [out w2].
  destruct (drainAndCloseHttpResponse resp w2) as [[] w3]. reflexivity.
Qed.

(** The end of [httpDo] reads from the body of the response, at most by
    one decoder, and neither drains nor closes it. *)
Lemma httpDo_result_frame (resp : Response) (res : option AccountData)
      (w : World) (bs : list body) (c : list byte) (k : nat) :
  bodies w = bs ++ [mkBody c k] ->
  Body resp = List.length bs ->
  exists c' tr,
    bodies (snd (httpDo_result resp res w)) = bs ++ [mkBody c' k] /\
    trace (snd (httpDo_result resp res w)) = trace w ++ tr /\
    (tr = [] \/ tr = [EvDecode (Body resp)]).
Proof.
  intros Hb Hi.
  assert (Hdec : forall n, exists c' tr,
             bodies (after_decode n (Body resp) w) = bs ++ [mkBody c' k] /\
             trace (after_decode n (Body resp) w) = trace w ++ tr /\
             (tr = [] \/ tr = [EvDecode (Body resp)])).
  { intros n. rewrite Hi, (after_decode_last n w bs c k Hb).
    exists (skipn n c), [EvDecode (List.length bs)]. cbn. auto. }
  assert (Hsame : exists c' tr,
             bodies w = bs ++ [mkBody c' k] /\ trace w = trace w ++ tr /\
             (tr = [] \/ tr = [EvDecode (Body resp)])).
  { exists c, []. rewrite app_nil_r. auto. }
  unfold httpDo_result, parseError, bind.
  destruct (isSuccess (StatusCode resp)).
  - destruct res as [v|]; [|exact Hsame].
    destruct (negb (StatusCode resp =? 204)); [|exact Hsame].
    rewrite json_Decode_spec. apply Hdec.
  - destruct ((StatusCode resp =? 400) || (StatusCode resp =? 409)).
    { rewrite parse400or409_spec. apply Hdec. }
    destruct (StatusCode resp =? 403).
    { rewrite parse403_spec. apply Hdec. }
    destruct (StatusCode resp =? 404); exact Hsame.
Qed.

(** Every response body [httpDo] received is released when it returns. *)
Lemma httpDo_bodies (method url : string) (body res : option AccountData)
      (w : World) :
  exists new,
    bodies (snd (httpDo a ctx method url body res w)) = bodies w ++ new /\
    Forall released new.
Proof.
  assert (Hnone : exists new, bodies w = bodies w ++ new /\ Forall released new).
  { exists []. rewrite app_nil_r. split; constructor. }
  destruct (json_Encode body) as [b|e] eqn:He.
  2:{ unfold httpDo. rewrite He. exact Hnone. }
  destruct (http_NewRequestWithContext method url b) as [req0|e] eqn:Hr.
  2:{ unfold httpDo. rewrite He, Hr. exact Hnone. }
  rewrite (httpDo_unfold _ _ _ _ _ _ _ He Hr). unfold httpDoRetry.
  pose proof (run_bodies a ctx (httpDo_headers req0) (retryCount a) 0
                         (set_reqBody b w)) as Hrun.
  destruct (httpDoRetry_from _ _ _ _ _ _) as [[resp|e] w1]; cbn [bodies set_reqBody] in Hrun.
  - destruct Hrun as (done & c & Hb & Hrel & Hidx).
    destruct (httpDo_result_frame resp res w1 _ c 0%nat Hb Hidx)
      as (c' & tr & Hb2 & _ & _).
    destruct (httpDo_result resp res w1) as [out w2]. cbn [snd] in *.
    destruct resp as [st r]. cbn [Body] in Hidx. subst r.
    rewrite (drainAndClose_last st w2 _ c' 0%nat Hb2). cbn [snd bodies].
    exists (done ++ [mkBody [] 1%nat]). rewrite app_assoc. split; [reflexivity|].
    apply Forall_app. split; [exact Hrel|].
    constructor; [apply released_drained | constructor].
  - exact Hrun.
Qed.

End ExecutorFacts.

(** ** The claims about whole operations *)

Section OperationClaims.

Context {lib : GoLib}.
Variables (a : api) (ctx : Context).

(** C2.  Every response body the engine receives is read to the end and
    closed exactly once, whatever the outcome.  Inside the retry loop a
    response with a transient status is drained and closed before the
    timer of the backoff is created, and the loop hands back its last
    response unread and open; [httpDo] then drains and closes that
    response once, as its last two steps, after at most one decoder has
    read from it (success, classified error and decode failure alike).
    When [httpDo] returns, all bodies received during the call are
    released. *)
Theorem every_body_is_drained_and_closed_once :
  (forall (req : Request) (count : nat) (w : World),
      match httpDoRetry a ctx req count w with
      | (Err _, w') =>
          exists new, bodies w' = bodies w ++ new /\ Forall released new
      | (Ok resp, w') =>
          exists done c,
            bodies w' = (bodies w ++ done) ++ [mkBody c 0%nat] /\
            Forall released done /\
            Body resp = List.length (bodies w ++ done)
      end) /\
  (forall (req : Request) (i : nat) (w : World) (n : nat) (st : Z) (c : list byte),
      client a (List.length (sent w)) req (reqBody w) = (n, Reply st c) ->
      isTransient st = true ->
      let b := List.length (bodies w) in
      let t := List.length (timers w) in
      trace (snd (httpDoRetry_attempt a ctx req i w)) =
      trace w ++ [EvSend (List.length (sent w)); EvDrain b; EvClose b;
                  EvNewTimer (backOff_duration i (rand_src w (draws w)))]
              ++ sleep_events t (ctx_select ctx t)) /\
  (forall (method url : string) (body res : option AccountData) (w : World),
      exists new,
        bodies (snd (httpDo a ctx method url body res w)) = bodies w ++ new /\
        Forall released new) /\
  (forall (method url : string) (body res : option AccountData) (b : list byte)
          (req0 : Request) (w : World) (resp : Response) (w1 : World),
      json_Encode body = Ok b ->
      http_NewRequestWithContext method url b = Ok req0 ->
      httpDoRetry a ctx (httpDo_headers req0) (retryCount a) (set_reqBody b w)
        = (Ok resp, w1) ->
      exists tr,
        trace (snd (httpDo a ctx method url body res w)) =
        trace w1 ++ tr ++ [EvDrain (Body resp); EvClose (Body resp)] /\
        (tr = [] \/ tr = [EvDecode (Body resp)])).
Proof.
  split; [|split; [|split]].
  - intros req count w. apply run_bodies.
  - intros req i w n st c Hsend Hst b t.
    rewrite httpDoRetry_attempt_spec. cbv zeta. rewrite Hsend, Hst. reflexivity.
  - apply httpDo_bodies.
  - intros method url body res b req0 w resp w1 He Hr Hrun.
    rewrite (httpDo_unfold a ctx _ _ _ _ _ _ _ He Hr), Hrun.
    pose proof (run_bodies a ctx (httpDo_headers req0) (retryCount a) 0
                           (set_reqBody b w)) as Hb.
    unfold httpDoRetry in Hrun. rewrite Hrun in Hb.
    destruct Hb as (done & c & Hb & _ & Hidx).
    destruct (httpDo_result_frame resp res w1 _ c 0%nat Hb Hidx)
      as (c' & tr & Hb2 & Htr & Hshape).
    destruct (httpDo_result resp res w1) as [out w2]. cbn [snd] in *.
    exists tr. split; [|exact Hshape].
    destruct resp as [st r]. cbn [Body] in *. subst r.
    rewrite (drainAndClose_last st w2 _ c' 0%nat Hb2). cbn [snd trace].
    rewrite Htr, <- app_assoc. reflexivity.
Qed.

(** C10.  When [Create] or [Fetch] returns an error, the account it
    returns with it is the zero value, whatever [httpDo] had written to
    the destination before failing. *)
Theorem zero_account_on_error :
  (forall (data : AccountData) (w : World) (r : AccountData) (e : error)
          (w' : World),
      Create a ctx data w = ((r, Some e), w') -> r = AccountData_zero) /\
  (forall (accountID : string) (w : World) (r : AccountData) (e : error)
          (w' : World),
      Fetch a ctx accountID w = ((r, Some e), w') -> r = AccountData_zero).
Proof.
  split.
  - intros data w r e w'. unfold Create, bind.
    destruct (httpDo _ _ _ _ _ _ _) as [[dest [err|]] w1]; cbn [snd fst];
      unfold Return; intros H; inversion H; reflexivity.
  - intros accountID w r e w'. unfold Fetch, bind.
    destruct (httpDo _ _ _ _ _ _ _) as [[dest [err|]] w1]; cbn [snd fst];
      unfold Return; intros H; inversion H; reflexivity.
Qed.

End OperationClaims.

Section ExhaustionAndCancellation.

Context {lib : GoLib}.
Variables (a : api) (ctx : Context).

Lemma NewRequest_ok (method url : string) (b : list byte) :
  http_NewRequest_check method url = None ->
  http_NewRequestWithContext method url b
  = Ok (mkRequest method url [] (Z.of_nat (List.length b))).
Proof. intros H. unfold http_NewRequestWithContext. now rewrite H. Qed.

(** [httpDo] hands on the error of the retry loop as it is. *)
Lemma httpDo_retry_error (method url : string) (body res : option AccountData)
      (b : list byte) (req0 : Request) (w : World) (e : error) (w' : World) :
  json_Encode body = Ok b ->
  http_NewRequestWithContext method url b = Ok req0 ->
  httpDoRetry a ctx (httpDo_headers req0) (retryCount a) (set_reqBody b w)
    = (Err e, w') ->
  httpDo a ctx method url body res w = ((res, Some e), w').
Proof.
  intros He Hr Hrun. rewrite (httpDo_unfold a ctx _ _ _ _ _ _ _ He Hr), Hrun.
  reflexivity.
Qed.

Lemma exhausted_httpDo (method url : string) (body res : option AccountData)
      (b : list byte) (w : World) :
  always_transient (client a) -> never_cancelled ctx ->
  json_Encode body = Ok b ->
  http_NewRequest_check method url = None ->
  exists w',
    httpDo a ctx method url body res w = ((res, Some (Ptr ErrTooManyRetries)), w') /\
    List.length (sent w') = (List.length (sent w) + retryCount a)%nat /\
    count_sends (trace w') = (count_sends (trace w) + retryCount a)%nat.
Proof.
  intros Hc Hs He Hr.
  destruct (exhausted_run a ctx
              (httpDo_headers (mkRequest method url [] (Z.of_nat (List.length b))))
              Hc Hs (retryCount a) 0%nat (set_reqBody b w))
    as (w' & Hrun & Hsent & Htr & _).
  exists w'. split; [|split; assumption].
  apply (httpDo_retry_error _ _ _ _ b _ _ _ _ He (NewRequest_ok _ _ _ Hr)).
  exact Hrun.
Qed.

(** C1.  Let the client answer every send with a transient status, and
    let no backoff sleep be cut short by the context, as in the package's
    test with the immediate timer.  Then for every number [count] of
    attempts allowed the retry loop sends exactly [count] requests and
    fails with too-many-retries; with 0 attempts allowed it fails at once
    and the world is untouched.  [Create], [Fetch] and [Delete], when
    their request can be built, do the same with the configured number
    of attempts. *)
Theorem transient_replies_use_up_the_attempts :
  always_transient (client a) -> never_cancelled ctx ->
  (forall (req : Request) (count : nat) (w : World),
      exists w',
        httpDoRetry a ctx req count w = (Err (Ptr ErrTooManyRetries), w') /\
        List.length (sent w') = (List.length (sent w) + count)%nat /\
        count_sends (trace w') = (count_sends (trace w) + count)%nat) /\
  (forall (req : Request) (w : World),
      httpDoRetry a ctx req 0 w = (Err (Ptr ErrTooManyRetries), w)) /\
  (forall (data : AccountData) (b : list byte) (w : World),
      json_Encode (Some data) = Ok b ->
      http_NewRequest_check "POST" (BaseURL ++ "/v1/organisation/accounts")%string
        = None ->
      exists w',
        Create a ctx data w
          = ((AccountData_zero, Some (Ptr ErrTooManyRetries)), w') /\
        List.length (sent w') = (List.length (sent w) + retryCount a)%nat /\
        count_sends (trace w') = (count_sends (trace w) + retryCount a)%nat) /\
  (forall (accountID : string) (b : list byte) (w : World),
      json_Encode None = Ok b ->
      http_NewRequest_check
        "GET" (BaseURL ++ "/v1/organisation/accounts/" ++ accountID)%string = None ->
      exists w',
        Fetch a ctx accountID w
          = ((AccountData_zero, Some (Ptr ErrTooManyRetries)), w') /\
        List.length (sent w') = (List.length (sent w) + retryCount a)%nat /\
        count_sends (trace w') = (count_sends (trace w) + retryCount a)%nat) /\
  (forall (accountID : string) (version : Z) (b : list byte) (w : World),
      json_Encode None = Ok b ->
      http_NewRequest_check
        "DELETE" (BaseURL ++ "/v1/organisation/accounts/" ++ accountID
                          ++ "?version="
                          ++ NilZero.string_of_int (Z.to_int version))%string
        = None ->
      exists w',
        Delete a ctx accountID version w = (Some (Ptr ErrTooManyRetries), w') /\
        List.length (sent w') = (List.length (sent w) + retryCount a)%nat /\
        count_sends (trace w') = (count_sends (trace w) + retryCount a)%nat).
Proof.
  intros Hc Hs. split; [|split; [|split; [|split]]].
  - intros req count w.
    destruct (exhausted_run a ctx req Hc Hs count 0%nat w)
      as (w' & Hrun & Hsent & Htr & _).
    exists w'. auto.
  - reflexivity.
  - intros data b w He Hr.
    destruct (exhausted_httpDo _ _ (Some data) (Some AccountData_zero) b w
                               Hc Hs He Hr) as (w' & Hdo & Hrest).
    exists w'. split; [|exact Hrest].
    unfold Create, bind. rewrite Hdo. reflexivity.
  - intros accountID b w He Hr.
    destruct (exhausted_httpDo _ _ None (Some AccountData_zero) b w
                               Hc Hs He Hr) as (w' & Hdo & Hrest).
    exists w'. split; [|exact Hrest].
    unfold Fetch, bind. rewrite Hdo. reflexivity.
  - intros accountID version b w He Hr.
    destruct (exhausted_httpDo _ _ None None b w Hc Hs He Hr)
      as (w' & Hdo & Hrest).
    exists w'. split; [|exact Hrest].
    unfold Delete, bind. rewrite Hdo. reflexivity.
Qed.

(** C6.  A backoff sleep during which the context is found done stops
    its timer; if the timer had expired by then, [Stop] reports false and
    the waiting signal is received, so that the timer is at rest either
    way.  The sleep returns the context's error; the retry loop returns
    it at once, so that the send of that attempt is the last, and
    [httpDo] returns it to its caller unchanged. *)
Theorem cancelled_sleep_stops_timer_and_ends_operation :
  (forall (d : Z) (w : World) (raced : bool),
      ctx_select ctx (List.length (timers w)) = DoneFirst raced ->
      let t := List.length (timers w) in
      sleepContext ctx d w =
      (Some (ctx_Err ctx),
       mkWorld (reqBody w) (sent w) (bodies w) (timers w ++ [Idle]) (rand_src w)
               (draws w)
               (trace w ++ [EvNewTimer d; EvStop t (negb raced)]
                        ++ (if raced then [EvTick t] else [])))) /\
  (forall (method url : string) (body res : option AccountData) (b : list byte)
          (req0 : Request) (w : World) (j : nat) (wj : World) (n : nat)
          (st : Z) (c : list byte) (raced : bool),
      json_Encode body = Ok b ->
      http_NewRequestWithContext method url b = Ok req0 ->
      let req := httpDo_headers req0 in
      Attempts a ctx req (retryCount a) 0 (set_reqBody b w) j wj ->
      client a (List.length (sent wj)) req (reqBody wj) = (n, Reply st c) ->
      isTransient st = true ->
      ctx_select ctx (List.length (timers wj)) = DoneFirst raced ->
      let s := List.length (sent wj) in
      let r := List.length (bodies wj) in
      let t := List.length (timers wj) in
      let w' :=
        mkWorld (skipn n (reqBody wj)) (sent wj ++ [reqBody wj])
                (bodies wj ++ [mkBody [] 1%nat])
                (timers wj ++ [Idle]) (rand_src wj) (S (draws wj))
                (trace wj ++ [EvSend s; EvDrain r; EvClose r;
                              EvNewTimer (backOff_duration j (rand_src wj (draws wj)));
                              EvStop t (negb raced)]
                          ++ (if raced then [EvTick t] else [])) in
      httpDoRetry a ctx req (retryCount a) (set_reqBody b w)
        = (Err (ctx_Err ctx), w') /\
      httpDo a ctx method url body res w = ((res, Some (ctx_Err ctx)), w')).
Proof.
  split.
  - intros d w raced Hsel t. subst t. rewrite sleepContext_spec. cbv zeta.
    rewrite Hsel. cbn [sleep_result sleep_events]. reflexivity.
  - intros method url body res b req0 w j wj n st c raced He Hr req Hrun Hsend
           Hst Hsel s r t w'.
    assert (Hloop : httpDoRetry a ctx req (retryCount a) (set_reqBody b w)
                    = (Err (ctx_Err ctx), w')).
    { exact (cancelled_sleep_ends_run a ctx req _ _ _ _ _ _ _ _
                                      Hrun Hsend Hst Hsel). }
    split; [exact Hloop|].
    exact (httpDo_retry_error _ _ _ _ b req0 _ _ _ He Hr Hloop).
Qed.

(** One level up, [httpDo] returns the transport's
    error unchanged. *)
Lemma transport_failure_ends_httpDo (method url : string)
      (body res : option AccountData) (b : list byte) (req0 : Request)
      (w : World) (j : nat) (wj : World) (n : nat) (msg : string) :
  json_Encode body = Ok b ->
  http_NewRequestWithContext method url b = Ok req0 ->
  Attempts a ctx (httpDo_headers req0) (retryCount a) 0 (set_reqBody b w) j wj ->
  client a (List.length (sent wj)) (httpDo_headers req0) (reqBody wj)
    = (n, Failed msg) ->
  httpDo a ctx method url body res w =
  ((res, Some (TransportError msg)),
   mkWorld (skipn n (reqBody wj)) (sent wj ++ [reqBody wj]) (bodies wj)
           (timers wj) (rand_src wj) (draws wj)
           (trace wj ++ [EvSend (List.length (sent wj))])).
Proof.
  intros He Hr Hrun Hsend.
  apply (httpDo_retry_error _ _ _ _ b req0 _ _ _ He Hr).
  unfold httpDoRetry.
  apply (Attempts_stop a ctx _ _ _ _ _ _ _ _ Hrun).
  rewrite httpDoRetry_attempt_spec. cbv zeta. rewrite Hsend. reflexivity.
Qed.

End ExhaustionAndCancellation.

(** ** The request body across attempts *)

Section RequestBody.

Context {lib : GoLib}.
Variable ctx : Context.

(** With a client that leaves the request body alone, as the stubs of
    the tests do, every attempt carries the bytes the buffer held at the
    start. *)
Lemma unread_body_is_replayed (a : api) (req : Request) :
  (forall i r avail, fst (client a i r avail) = 0%nat) ->
  forall (k i : nat) (w : World),
  exists m, (m <= k)%nat /\
    sent (snd (httpDoRetry_from a ctx req k i w))
    = sent w ++ repeat (reqBody w) m /\
    reqBody (snd (httpDoRetry_from a ctx req k i w)) = reqBody w.
Proof.
  intros Hc. induction k as [|k IH]; intros i w.
  - exists 0%nat. simpl. rewrite app_nil_r. auto.
  - simpl. unfold bind. rewrite httpDoRetry_attempt_spec. cbv zeta.
    pose proof (Hc (List.length (sent w)) req (reqBody w)) as Hn.
    destruct (client a (List.length (sent w)) req (reqBody w)) as [n out].
    simpl in Hn. subst n.
    assert (Hone : exists m, (m <= S k)%nat /\
              sent w ++ [reqBody w] = sent w ++ repeat (reqBody w) m /\
              skipn 0 (reqBody w) = reqBody w)
      by (exists 1%nat; repeat split; lia).
    destruct out as [msg|st c]; [exact Hone|].
    destruct (isTransient st); [|exact Hone].
    destruct (ctx_select ctx (List.length (timers w))); cbn [sleep_result option_map];
      [|exact Hone].
    cbn [skipn].
    match goal with |- context [httpDoRetry_from a ctx req k (S i) ?w1] =>
      destruct (IH (S i) w1) as (m & Hm & Hsent & Hreq)
    end.
    cbn [sent reqBody skipn] in Hsent, Hreq.
    exists (S m). rewrite Hsent, Hreq, <- app_assoc. repeat split. lia.
Qed.

(** Once the buffer is empty, a client that reads the body and always
    answers with a transient status is sent empty bodies only. *)
Lemma wire_run_on_empty_buffer (replies : nat -> RoundTrip) (count : nat)
      (req : Request) :
  (forall i, exists st c, replies i = Reply st c /\ isTransient st = true) ->
  never_cancelled ctx ->
  forall (k i : nat) (w : World),
    reqBody w = [] ->
    exists w',
      httpDoRetry_from (mkApi (wireClient replies) count) ctx req k i w
        = (Err (Ptr ErrTooManyRetries), w') /\
      sent w' = sent w ++ repeat [] k.
Proof.
  intros Hc Hs. induction k as [|k IH]; intros i w Hw.
  - exists w. simpl. rewrite app_nil_r. auto.
  - simpl. unfold bind. rewrite httpDoRetry_attempt_spec. cbv zeta.
    cbn [client wireClient].
    destruct (Hc (List.length (sent w))) as (st & c & -> & Hst).
    rewrite Hst, Hs, Hw. cbn [sleep_result option_map List.length skipn].
    match goal with |- context [httpDoRetry_from ?a ctx req k (S i) ?w1] =>
      destruct (IH (S i) w1 eq_refl) as (w' & Hrun & Hsent)
    end.
    exists w'. rewrite Hrun. split; [reflexivity|].
    rewrite Hsent. cbn [sent]. rewrite <- app_assoc. reflexivity.
Qed.

(** C9.  With a client that reads the request body when it sends, as the
    HTTP transport does, and that answers every send with a transient
    status, only the first attempt carries the encoded body [b]: the
    request keeps the reader it was built with, whose buffer the first
    send has emptied, and each later attempt carries no bytes. *)
Theorem retried_requests_carry_an_empty_body (replies : nat -> RoundTrip)
        (k : nat) (method url : string) (body res : option AccountData)
        (b : list byte) (w : World) :
  (forall i, exists st c, replies i = Reply st c /\ isTransient st = true) ->
  never_cancelled ctx ->
  json_Encode body = Ok b ->
  http_NewRequest_check method url = None ->
  exists w',
    httpDo (mkApi (wireClient replies) (S k)) ctx method url body res w
      = ((res, Some (Ptr ErrTooManyRetries)), w') /\
    sent w' = sent w ++ b :: repeat [] k.
Proof.
  intros Hc Hs He Hr.
  set (req := httpDo_headers (mkRequest method url [] (Z.of_nat (List.length b)))).
  assert (Hrun : exists w',
             httpDoRetry (mkApi (wireClient replies) (S k)) ctx req (S k)
                         (set_reqBody b w)
             = (Err (Ptr ErrTooManyRetries), w') /\
             sent w' = sent w ++ b :: repeat [] k).
  { unfold httpDoRetry. simpl. unfold bind.
    rewrite httpDoRetry_attempt_spec. cbv zeta. cbn [client wireClient].
    destruct (Hc (List.length (sent (set_reqBody b w)))) as (st & c & -> & Hst).
    rewrite Hst, Hs. cbn [sleep_result option_map reqBody set_reqBody].
    rewrite skipn_all.
    match goal with |- context [httpDoRetry_from ?a ctx req k 1 ?w1] =>
      destruct (wire_run_on_empty_buffer replies (S k) req Hc Hs k 1%nat w1 eq_refl)
        as (w' & Hrun & Hsent)
    end.
    exists w'. rewrite Hrun. split; [reflexivity|].
    rewrite Hsent. cbn [sent set_reqBody]. rewrite <- app_assoc. reflexivity. }
  destruct Hrun as (w' & Hrun & Hsent).
  exists w'. split; [|exact Hsent].
  apply (httpDo_retry_error _ ctx _ _ _ _ b _ _ _ _ He (NewRequest_ok _ _ _ Hr)).
  exact Hrun.
Qed.

End RequestBody.

(** ** Worked examples *)

(** The test [TestApiCreateFetchDeleteRetry]: a client that always answers
    429 and 100 attempts allowed. *)
Lemma transient_replies_use_up_the_attempts_example :
  let a := mkApi (newClientReturningStatusCode 429) 100 in
  let ctx := newContextWithImmediateTimer in
  always_transient (client a) /\ never_cancelled ctx /\
  exists w',
    Create (lib := exampleLib) a ctx AccountData_zero (fresh (fun _ => 0))
      = ((AccountData_zero, Some (Ptr ErrTooManyRetries)), w') /\
    List.length (sent w') = 100%nat /\
    count_sends (trace w') = 100%nat.
Proof.
  cbv zeta.
  assert (Hc : always_transient
                 (client (mkApi (newClientReturningStatusCode 429) 100))).
  { intros i req avail. exists 429, []. split; [reflexivity|]. simpl. auto. }
  assert (Hs : never_cancelled newContextWithImmediateTimer).
  { intros t. reflexivity. }
  split; [exact Hc|]. split; [exact Hs|].
  destruct (transient_replies_use_up_the_attempts (lib := exampleLib) _ _ Hc Hs)
    as (_ & _ & HCreate & _).
  exact (HCreate AccountData_zero _ (fresh (fun _ => 0)) eq_refl eq_refl).
Defined.

(** The test [TestApiCreateInvalidJsonResponse]: status 200 with a body
    that does not decode; the body is drained and closed all the same. *)
Lemma every_body_is_drained_and_closed_once_example :
  let a := mkApi (newClientReturningStatusCodeAndBuffer 200 [x7b; x22; x64]) 3 in
  let ctx := newContextWithImmediateTimer in
  let w := fresh (fun _ => 0) in
  exists tr,
    trace (snd (httpDo (lib := exampleLib) a ctx "POST" "http://accountapi:8080"
                       (Some AccountData_zero) (Some AccountData_zero) w))
    = [EvSend 0] ++ tr ++ [EvDrain 0; EvClose 0] /\
    (tr = [] \/ tr = [EvDecode 0]).
Proof.
  cbv zeta.
  destruct (every_body_is_drained_and_closed_once (lib := exampleLib)
              (mkApi (newClientReturningStatusCodeAndBuffer 200 [x7b; x22; x64]) 3)
              newContextWithImmediateTimer) as (_ & _ & _ & H).
  exact (H "POST" "http://accountapi:8080" (Some AccountData_zero)
           (Some AccountData_zero) _ _ (fresh (fun _ => 0)) _ _
           eq_refl eq_refl eq_refl).
Defined.

(** A 429 followed by a 404: the first is drained and slept on, the second
    ends the run unread. *)
Lemma retries_exactly_the_transient_statuses_example :
  let a := mkApi (scriptedClient [Reply 429 [x31]; Reply 404 [x32; x33]]) 3 in
  let ctx := newContextWithImmediateTimer in
  exists w',
    httpDoRetry (lib := exampleLib) a ctx exampleRequest 3 (fresh (fun _ => 50))
      = (Ok (mkResponse 404 1), w') /\
    bodies w' = [mkBody [] 1%nat; mkBody [x32; x33] 0%nat] /\
    trace w' = [EvSend 0; EvDrain 0; EvClose 0; EvNewTimer 500000000; EvTick 0;
                EvSend 1].
Proof.
  cbv zeta.
  set (a := mkApi (scriptedClient [Reply 429 [x31]; Reply 404 [x32; x33]]) 3).
  eassert (Hrun : Attempts (lib := exampleLib) a newContextWithImmediateTimer
                           exampleRequest 3 0 (fresh (fun _ => 50)) 1 _).
  { eapply Attempts_next; [vm_compute; reflexivity | apply Attempts_first]. }
  destruct (retries_exactly_the_transient_statuses (lib := exampleLib) a
              newContextWithImmediateTimer exampleRequest 3 _ 1 _ 0%nat 404
              [x32; x33] Hrun eq_refl)
    as (_ & _ & Hfinal).
  eexists. split.
  - apply Hfinal. unfold transient_set. simpl. lia.
  - split; reflexivity.
Defined.

(** The test [TestApiCreateBadRequestError]: status 400 with a body that
    decodes. *)
Lemma parseError_by_status_example :
  fst (parseError (lib := exampleLib) (mkResponse 400 0)
                  (mkWorld [] [[]] [mkBody [x7b] 0%nat] [] (fun _ => 0) 0%nat
                           [EvSend 0]))
  = Ptr (ErrBadRequest
           (mkGenericError "Message parsing failed: Unexpected character"
                           "d0a17902-63ed-4cb6-a8e8-fac5ca31b0b7")).
Proof.
  destruct (parseError_by_status (lib := exampleLib) (mkResponse 400 0)
              (mkWorld [] [[]] [mkBody [x7b] 0%nat] [] (fun _ => 0) 0%nat
                       [EvSend 0])) as (H400 & _).
  exact (H400 eq_refl).
Defined.

(** The context is cancelled during the first sleep and the timer has
    expired by the time it is stopped. *)
Lemma cancelled_sleep_stops_timer_and_ends_operation_example :
  let a := mkApi (newClientReturningStatusCode 429) 3 in
  let ctx := cancelledDuringSleep 0 true in
  exists w',
    httpDo (lib := exampleLib) a ctx "GET"
           "http://accountapi:8080/v1/organisation/accounts/foo" None None
           (fresh (fun _ => 50))
      = ((None, Some (ContextError false)), w') /\
    List.length (sent w') = 1%nat /\
    timers w' = [Idle] /\
    trace w' = [EvSend 0; EvDrain 0; EvClose 0; EvNewTimer 500000000;
                EvStop 0 false; EvTick 0].
Proof.
  cbv zeta.
  destruct (cancelled_sleep_stops_timer_and_ends_operation (lib := exampleLib)
              (mkApi (newClientReturningStatusCode 429) 3)
              (cancelledDuringSleep 0 true)) as (_ & H).
  eexists. split.
  - refine (proj2 (H "GET" "http://accountapi:8080/v1/organisation/accounts/foo"
                     None None _ _ (fresh (fun _ => 50)) 0%nat _ 0%nat 429 [] true
                     eq_refl eq_refl (Attempts_first _ _ _ _ _ _)
                     eq_refl eq_refl eq_refl)).
  - repeat split.
Defined.

(** A connection failure on the second of five attempts. *)
Lemma transport_failure_ends_run_example :
  let a := mkApi (scriptedClient [Reply 503 []]) 5 in
  let ctx := newContextWithImmediateTimer in
  exists w',
    httpDoRetry (lib := exampleLib) a ctx exampleRequest 5 (fresh (fun _ => 50))
      = (Err (TransportError "connection refused"), w') /\
    List.length (sent w') = 2%nat /\
    List.length (timers w') = 1%nat.
Proof.
  cbv zeta.
  set (a := mkApi (scriptedClient [Reply 503 []]) 5).
  eassert (Hrun : Attempts (lib := exampleLib) a newContextWithImmediateTimer
                           exampleRequest 5 0 (fresh (fun _ => 50)) 1 _).
  { eapply Attempts_next; [vm_compute; reflexivity | apply Attempts_first]. }
  eexists. split.
  - exact (transport_failure_ends_run (lib := exampleLib) a
             newContextWithImmediateTimer exampleRequest 5 _ 1 _ 0%nat
             "connection refused" Hrun eq_refl).
  - split; reflexivity.
Defined.

(** An empty target matches any bad request, as in the tests'
    [errors.Is(err, new(ErrBadRequest))]. *)
Lemma Is_same_kind_and_wildcard_fields_example :
  ErrBadRequest_Is
    (mkGenericError "Message parsing failed: Unexpected character"
                    "d0a17902-63ed-4cb6-a8e8-fac5ca31b0b7")
    (Ptr (ErrBadRequest (mkGenericError EmptyString EmptyString))) = true.
Proof.
  destruct Is_same_kind_and_wildcard_fields as (H & _).
  apply H. eexists. split; [reflexivity|].
  split; right; reflexivity.
Defined.

(** [Fetch] through a client that reads the request body and answers 429
    three times: the body [null] goes out once, then nothing. *)
Lemma retried_requests_carry_an_empty_body_example :
  exists w',
    httpDo (lib := exampleLib) (mkApi (wireClient (fun _ => Reply 429 [])) 3)
           newContextWithImmediateTimer "GET"
           "http://accountapi:8080/v1/organisation/accounts/foo"
           None (Some AccountData_zero) (fresh (fun _ => 50))
      = ((Some AccountData_zero, Some (Ptr ErrTooManyRetries)), w') /\
    sent w' = [[x6e; x75; x6c; x6c; x0a]; []; []].
Proof.
  refine (retried_requests_carry_an_empty_body (lib := exampleLib)
            newContextWithImmediateTimer (fun _ => Reply 429 []) 2
            "GET" "http://accountapi:8080/v1/organisation/accounts/foo"
            None (Some AccountData_zero) _ (fresh (fun _ => 50)) _ _ eq_refl eq_refl).
  - intros i. exists 429, []. split; reflexivity.
  - intros t. reflexivity.
Defined.

(** [Create] on a 200 whose body breaks off: the decoder has written the
    first field to the destination, [Create] returns the zero account. *)
Lemma zero_account_on_error_example :
  let a := mkApi (newClientReturningStatusCodeAndBuffer 200 [x7b; x22; x64]) 3 in
  let w := fresh (fun _ => 0) in
  fst (fst (httpDo (lib := exampleLib) a newContextWithImmediateTimer "POST"
                   "http://accountapi:8080/v1/organisation/accounts"
                   (Some AccountData_zero) (Some AccountData_zero) w))
    = Some (mkAccountData None "0d209d7f-d07a-4542-947f-5885fddddae2"
                          EmptyString EmptyString None) /\
  fst (fst (Create (lib := exampleLib) a newContextWithImmediateTimer
                   AccountData_zero w)) = AccountData_zero /\
  snd (fst (Create (lib := exampleLib) a newContextWithImmediateTimer
                   AccountData_zero w)) = Some (JsonError "unexpected EOF").
Proof.
  cbv zeta. split; [reflexivity|]. split; [|reflexivity].
  destruct (zero_account_on_error (lib := exampleLib)
              (mkApi (newClientReturningStatusCodeAndBuffer 200 [x7b; x22; x64]) 3)
              newContextWithImmediateTimer) as (H & _).
  apply (H AccountData_zero (fresh (fun _ => 0)) _ (JsonError "unexpected EOF")
           (snd (Create (lib := exampleLib)
                   (mkApi (newClientReturningStatusCodeAndBuffer 200 [x7b; x22; x64]) 3)
                   newContextWithImmediateTimer AccountData_zero
                   (fresh (fun _ => 0))))).
  vm_compute. reflexivity.
Defined.

(** * Further properties of the package *)

(** ** Matching as an order *)

Lemma field_matches_refl (x : string) : field_matches x x.
Proof. left. reflexivity. Qed.

Lemma field_matches_trans (x y z : string) :
  field_matches x y -> field_matches y z -> field_matches x z.
Proof.
  unfold field_matches. intros [Hxy|Hy] [Hyz|Hz]; subst; auto.
Qed.

Lemma field_matches_antisym (x y : string) :
  field_matches x y -> field_matches y x -> x = y.
Proof.
  unfold field_matches. intros [Hxy|Hy] [Hyx|Hx]; subst; auto.
Qed.

Lemma isSameGenericError_zero (a : GenericError) :
  isSameGenericError a GenericError_zero = true.
Proof. apply isSameGenericError_iff. split; right; reflexivity. Qed.

Lemma isSameForbiddenError_zero (a : ForbiddenError) :
  isSameForbiddenError a ForbiddenError_zero = true.
Proof. apply isSameForbiddenError_iff. split; right; reflexivity. Qed.

(** The matching of [isSameGenericError] and [isSameForbiddenError] is a
    partial order on error details: every detail matches itself, matches
    chain, and two details that match each other are equal.  The zero
    value is its greatest element: every detail matches it, and it matches
    nothing but itself. *)
Theorem matching_is_a_partial_order :
  (forall a, isSameGenericError a a = true) /\
  (forall a b c, isSameGenericError a b = true -> isSameGenericError b c = true ->
                 isSameGenericError a c = true) /\
  (forall a b, isSameGenericError a b = true -> isSameGenericError b a = true ->
               a = b) /\
  (forall a, isSameGenericError a GenericError_zero = true) /\
  (forall b, isSameGenericError GenericError_zero b = true -> b = GenericError_zero) /\
  (forall a, isSameForbiddenError a a = true) /\
  (forall a b c, isSameForbiddenError a b = true -> isSameForbiddenError b c = true ->
                 isSameForbiddenError a c = true) /\
  (forall a b, isSameForbiddenError a b = true -> isSameForbiddenError b a = true ->
               a = b) /\
  (forall a, isSameForbiddenError a ForbiddenError_zero = true) /\
  (forall b, isSameForbiddenError ForbiddenError_zero b = true ->
             b = ForbiddenError_zero).
Proof.
  repeat split.
  - intros a. apply isSameGenericError_iff. split; apply field_matches_refl.
  - intros a b c Hab Hbc.
    apply isSameGenericError_iff in Hab, Hbc. apply isSameGenericError_iff.
    destruct Hab, Hbc. split; eapply field_matches_trans; eauto.
  - intros [am ac] [bm bc] Hab Hba.
    apply isSameGenericError_iff in Hab, Hba. cbn in Hab, Hba.
    destruct Hab as [H1 H2], Hba as [H3 H4].
    rewrite (field_matches_antisym _ _ H1 H3), (field_matches_antisym _ _ H2 H4).
    reflexivity.
  - intros a. apply isSameGenericError_iff. split; right; reflexivity.
  - intros [bm bc] H. apply isSameGenericError_iff in H. cbn in H.
    destruct H as [[H1|H1] [H2|H2]]; subst; reflexivity.
  - intros a. apply isSameForbiddenError_iff. split; apply field_matches_refl.
  - intros a b c Hab Hbc.
    apply isSameForbiddenError_iff in Hab, Hbc. apply isSameForbiddenError_iff.
    destruct Hab, Hbc. split; eapply field_matches_trans; eauto.
  - intros [ae ad] [be bd] Hab Hba.
    apply isSameForbiddenError_iff in Hab, Hba. cbn in Hab, Hba.
    destruct Hab as [H1 H2], Hba as [H3 H4].
    rewrite (field_matches_antisym _ _ H1 H3), (field_matches_antisym _ _ H2 H4).
    reflexivity.
  - intros a. apply isSameForbiddenError_iff. split; right; reflexivity.
  - intros [be bd] H. apply isSameForbiddenError_iff in H. cbn in H.
    destruct H as [[H1|H1] [H2|H2]]; subst; reflexivity.
Qed.

(** A detail with only a code matches the detail without it, not the other
    way round. *)
Lemma matching_is_a_partial_order_example :
  isSameGenericError (mkGenericError "Duplicate id" "4bc0fa5d")
                     (mkGenericError "Duplicate id" EmptyString) = true /\
  mkGenericError "Duplicate id" EmptyString
  <> mkGenericError "Duplicate id" "4bc0fa5d" /\
  isSameGenericError (mkGenericError "Duplicate id" EmptyString)
                     (mkGenericError "Duplicate id" "4bc0fa5d") = false.
Proof.
  destruct matching_is_a_partial_order as (_ & _ & Hanti & _).
  split; [reflexivity|]. split; [discriminate|].
  destruct (isSameGenericError (mkGenericError "Duplicate id" EmptyString)
                               (mkGenericError "Duplicate id" "4bc0fa5d")) eqn:E;
    [|reflexivity].
  exfalso.
  assert (H : mkGenericError "Duplicate id" "4bc0fa5d"
              = mkGenericError "Duplicate id" EmptyString)
    by (apply Hanti; [reflexivity | exact E]).
  discriminate H.
Defined.

(** ** The texts of the errors *)

Lemma length_zero_empty (s : string) : String.length s = 0%nat -> s = EmptyString.
Proof. destruct s; [reflexivity | discriminate]. Qed.

Lemma append_empty (a b : string) :
  (a ++ b)%string = EmptyString -> a = EmptyString /\ b = EmptyString.
Proof. destruct a; simpl; [auto | discriminate]. Qed.

Lemma string_app_assoc (a b c : string) :
  ((a ++ b) ++ c)%string = (a ++ b ++ c)%string.
Proof. induction a as [|x a IH]; simpl; [reflexivity | now rewrite IH]. Qed.

Lemma detail_text (code msg : string) :
  let text := if Nat.ltb 0 (String.length code)
              then Sprintf_colon code msg else msg in
  (text = EmptyString <-> code = EmptyString /\ msg = EmptyString) /\
  (exists front, text = (front ++ msg)%string) /\
  (code = EmptyString -> text = msg) /\
  (code <> EmptyString -> text = (code ++ ": " ++ msg)%string).
Proof.
  cbv zeta. destruct code as [|c code]; cbn [String.length Nat.ltb Nat.leb].
  - split; [|split; [|split]].
    + split; [intros H; split; [reflexivity | exact H] | intros [_ H]; exact H].
    + exists EmptyString. reflexivity.
    + reflexivity.
    + intros H. contradiction H. reflexivity.
  - unfold Sprintf_colon. split; [|split; [|split]].
    + split; [intros H; discriminate H | intros [H _]; discriminate H].
    + exists (String c code ++ ": ")%string.
      rewrite string_app_assoc. reflexivity.
    + intros H. discriminate H.
    + reflexivity.
Qed.

(** The text of a bad-request, conflict or forbidden error always ends
    with its message (the description, for forbidden); it is the message
    alone when the code is empty and the code, a colon and the message
    otherwise; so it is empty exactly when both fields are, as for an error
    body that decodes without either field. *)
Theorem error_text_ends_with_the_message :
  (forall e : GenericError,
      (ErrBadRequest_Error e = EmptyString <->
       ErrorCode e = EmptyString /\ ErrorMessage e = EmptyString) /\
      (exists front, ErrBadRequest_Error e = (front ++ ErrorMessage e)%string) /\
      (ErrorCode e = EmptyString -> ErrBadRequest_Error e = ErrorMessage e) /\
      (ErrorCode e <> EmptyString ->
       ErrBadRequest_Error e = (ErrorCode e ++ ": " ++ ErrorMessage e)%string)) /\
  (forall e : GenericError, ErrConflict_Error e = ErrBadRequest_Error e) /\
  (forall e : ForbiddenError,
      (ErrForbidden_Error e = EmptyString <->
       Error e = EmptyString /\ ErrorDescription e = EmptyString) /\
      (exists front, ErrForbidden_Error e = (front ++ ErrorDescription e)%string) /\
      (Error e = EmptyString -> ErrForbidden_Error e = ErrorDescription e) /\
      (Error e <> EmptyString ->
       ErrForbidden_Error e = (Error e ++ ": " ++ ErrorDescription e)%string)).
Proof.
  split; [|split].
  - intros e. exact (detail_text (ErrorCode e) (ErrorMessage e)).
  - reflexivity.
  - intros e. exact (detail_text (Error e) (ErrorDescription e)).
Qed.

(** The forbidden error of the package's test. *)
Lemma error_text_ends_with_the_message_example :
  ErrForbidden_Error (mkForbiddenError "invalid_grant" "Wrong email or password.")
  = "invalid_grant: Wrong email or password.".
Proof.
  destruct error_text_ends_with_the_message as (_ & _ & H).
  destruct (H (mkForbiddenError "invalid_grant" "Wrong email or password."))
    as (_ & _ & _ & Hcode).
  apply Hcode. discriminate.
Defined.

(** ** Classified errors and the targets of the tests *)

Section ClassifiedErrors.

Context {lib : GoLib}.

(** The errors the classifier makes from a 400, 409 or 403 with a body
    that decodes match the empty target of their own kind through [Is],
    as the tests check with [errors.Is(err, new(ErrBadRequest))] and the
    like, and match no empty target of the other two kinds.  When the body
    does not decode, the error has no method [Is] at all. *)
Theorem classified_errors_match_the_empty_target (resp : Response) (w : World) :
  let b := nth (Body resp) (bodies w) (mkBody [] 0%nat) in
  let e := fst (parseError resp w) in
  let bad := Ptr (ErrBadRequest GenericError_zero) in
  let conflict := Ptr (ErrConflict GenericError_zero) in
  let forbidden := Ptr (ErrForbidden ForbiddenError_zero) in
  (StatusCode resp = 400 ->
   dec_err (json_Decode_GenericError (unread b)) = None ->
   Is e bad = Some true /\ Is e conflict = Some false /\ Is e forbidden = Some false) /\
  (StatusCode resp = 409 ->
   dec_err (json_Decode_GenericError (unread b)) = None ->
   Is e bad = Some false /\ Is e conflict = Some true /\ Is e forbidden = Some false) /\
  (StatusCode resp = 403 ->
   dec_err (json_Decode_ForbiddenError (unread b)) = None ->
   Is e bad = Some false /\ Is e conflict = Some false /\ Is e forbidden = Some true) /\
  (forall msg target,
      (StatusCode resp = 400 \/ StatusCode resp = 409) ->
      dec_err (json_Decode_GenericError (unread b)) = Some msg ->
      e = JsonError msg /\ Is e target = None) /\
  (forall msg target,
      StatusCode resp = 403 ->
      dec_err (json_Decode_ForbiddenError (unread b)) = Some msg ->
      e = JsonError msg /\ Is e target = None).
Proof.
  cbv zeta. unfold parseError.
  split; [|split; [|split; [|split]]].
  - intros Hst Hd. rewrite Hst. cbn [Z.eqb orb Pos.eqb].
    rewrite parse400or409_spec. cbn [fst]. rewrite Hd, Hst. cbn.
    rewrite isSameGenericError_zero. auto.
  - intros Hst Hd. rewrite Hst. cbn [Z.eqb orb Pos.eqb].
    rewrite parse400or409_spec. cbn [fst]. rewrite Hd, Hst. cbn.
    rewrite isSameGenericError_zero. auto.
  - intros Hst Hd. rewrite Hst. cbn [Z.eqb orb Pos.eqb].
    rewrite parse403_spec. cbn [fst]. rewrite Hd. cbn.
    rewrite isSameForbiddenError_zero. auto.
  - intros msg target [Hst|Hst] Hd; rewrite Hst; cbn [Z.eqb orb Pos.eqb];
      rewrite parse400or409_spec; cbn [fst]; rewrite Hd; auto.
  - intros msg target Hst Hd. rewrite Hst. cbn [Z.eqb orb Pos.eqb].
    rewrite parse403_spec. cbn [fst]. rewrite Hd. auto.
Qed.

End ClassifiedErrors.

(** The conflict of [TestApiCreateConflictError]. *)
Lemma classified_errors_match_the_empty_target_example :
  let w := mkWorld [] [[]] [mkBody [x7b] 0%nat] [] (fun _ => 0) 0%nat [EvSend 0] in
  let e := fst (parseError (lib := exampleLib) (mkResponse 409 0) w) in
  Is e (Ptr (ErrBadRequest GenericError_zero)) = Some false /\
  Is e (Ptr (ErrConflict GenericError_zero)) = Some true /\
  Is e (Ptr (ErrForbidden ForbiddenError_zero)) = Some false.
Proof.
  cbv zeta.
  destruct (classified_errors_match_the_empty_target (lib := exampleLib)
              (mkResponse 409 0)
              (mkWorld [] [[]] [mkBody [x7b] 0%nat] [] (fun _ => 0) 0%nat
                       [EvSend 0])) as (_ & H & _).
  exact (H eq_refl eq_refl).
Defined.

(** ** More on the backoff delay *)

Lemma spec_base_steps_upto_58 :
  forallb (fun n => spec_base n + 250 <=? spec_base (S n)) (seq 0 58) = true.
Proof. vm_compute. reflexivity. Qed.

Lemma spec_base_grows (n m : nat) :
  (n < m)%nat -> (m <= 58)%nat -> spec_base n + 250 <= spec_base m.
Proof.
  intros Hnm Hm. induction m as [|m IH]; [lia|].
  pose proof spec_base_steps_upto_58 as Hs.
  rewrite forallb_forall in Hs.
  specialize (Hs m ltac:(apply in_seq; lia)). apply Z.leb_le in Hs.
  destruct (Nat.eq_dec n m) as [->|Hne]; [exact Hs|].
  specialize (IH ltac:(lia) ltac:(lia)). lia.
Qed.

Section BackOffGrowth.

Context {lib : GoLib}.

(** Up to attempt 58 nothing wraps and the floor is not reached. *)
Lemma backOff_plain_upto_58 (n : nat) (raw : Z) :
  (n <= 58)%nat ->
  backOff_base n = spec_base n /\
  500 <= spec_base n <= 8170770825985 /\
  backOff_ms n raw = spec_base n + (raw mod 100 - 50) /\
  backOff_duration n raw = (spec_base n + (raw mod 100 - 50)) * Millisecond.
Proof.
  intros Hn.
  pose proof (jitter_range raw) as [Hj Hjr]. cbv zeta in Hj, Hjr.
  pose proof spec_base_bounds_upto_58 as Hb.
  rewrite forallb_forall in Hb.
  specialize (Hb n ltac:(apply in_seq; lia)).
  apply andb_true_iff in Hb. destruct Hb as [Hlo Hhi].
  apply Z.leb_le in Hlo, Hhi.
  assert (Hbase : backOff_base n = spec_base n)
    by (apply backOff_base_upto_72; lia).
  assert (Hms : backOff_ms n raw = spec_base n + (raw mod 100 - 50)).
  { unfold backOff_ms. rewrite Hbase, Hj. unfold int_add.
    rewrite wrap64_id by lia. unfold max, minBackOffMs.
    destruct (Z.gtb_spec 100 (spec_base n + (raw mod 100 - 50))); lia. }
  repeat split; try assumption.
  unfold backOff_duration. rewrite Hms. unfold int_mul, Millisecond.
  rewrite wrap64_id by lia. reflexivity.
Qed.

(** Up to attempt 58 the floor of 100ms never decides the delay: the delay
    is the base plus the jitter and at least 450ms.  A later attempt waits
    longer than an earlier one, by more than 150ms, whatever the two jitter
    draws are. *)
Theorem delays_grow_and_stay_above_the_floor (n m : nat) (raw raw' : Z) :
  (n < m)%nat -> (m <= 58)%nat ->
  backOff_ms n raw = backOff_base n + (raw mod 100 - 50) /\
  backOff_ms m raw' = backOff_base m + (raw' mod 100 - 50) /\
  450 <= backOff_ms n raw /\
  backOff_ms n raw + 151 <= backOff_ms m raw' /\
  backOff_duration n raw + 151 * Millisecond <= backOff_duration m raw'.
Proof.
  intros Hnm Hm.
  destruct (backOff_plain_upto_58 n raw ltac:(lia)) as (Hbn & Hrn & Hmsn & Hdn).
  destruct (backOff_plain_upto_58 m raw' ltac:(lia)) as (Hbm & Hrm & Hmsm & Hdm).
  pose proof (spec_base_grows n m Hnm Hm) as Hg.
  pose proof (Z.mod_pos_bound raw 100 ltac:(lia)) as Hr.
  pose proof (Z.mod_pos_bound raw' 100 ltac:(lia)) as Hr'.
  rewrite Hdn, Hdm, Hmsn, Hmsm, Hbn, Hbm. unfold Millisecond.
  repeat split; lia.
Qed.

(** For every row of the table of [TestBackOff] and every jitter draw, the
    duration asked of the timer is within 50ms of the expected delay, half
    the tolerance of the test. *)
Theorem TestBackOff_rows_within_tolerance (n : nat) (expected raw : Z) :
  In (n, expected) TestBackOff_table ->
  - 50 * Millisecond <= backOff_duration n raw - expected * Millisecond
    < 50 * Millisecond /\
  2 * Z.abs (backOff_duration n raw - expected * Millisecond)
    <= TestBackOff_tolerance.
Proof.
  intros Hin.
  assert (Hn : (n <= 58)%nat /\ spec_base n = expected).
  { unfold TestBackOff_table in Hin. simpl in Hin.
    repeat (destruct Hin as [Hin|Hin];
            [inversion Hin; subst; split; [lia | vm_compute; reflexivity]|]).
    contradiction. }
  destruct Hn as [Hn Hexp].
  destruct (backOff_plain_upto_58 n raw Hn) as (_ & _ & _ & Hd).
  pose proof (Z.mod_pos_bound raw 100 ltac:(lia)) as Hr.
  rewrite Hd, Hexp. unfold TestBackOff_tolerance, backOffJitterMs, Millisecond.
  lia.
Qed.

End BackOffGrowth.

(** Attempts 0 and 1 with the extreme draws: 549ms against 700ms. *)
Lemma delays_grow_and_stay_above_the_floor_example :
  backOff_ms (lib := exampleLib) 0 99 = 549 /\
  backOff_ms (lib := exampleLib) 1 0 = 700 /\
  backOff_duration (lib := exampleLib) 0 99 + 151 * Millisecond
  <= backOff_duration (lib := exampleLib) 1 0.
Proof.
  destruct (delays_grow_and_stay_above_the_floor (lib := exampleLib) 0 1 99 0
              ltac:(lia) ltac:(lia)) as (H0 & H1 & _ & _ & Hd).
  split; [rewrite H0; vm_compute; reflexivity|].
  split; [rewrite H1; vm_compute; reflexivity|].
  exact Hd.
Defined.

(** The row of attempt 3, where the base is rounded up from 1687.5. *)
Lemma TestBackOff_rows_within_tolerance_example :
  - 50 * Millisecond
  <= backOff_duration (lib := exampleLib) 3 7 - 1688 * Millisecond
  < 50 * Millisecond.
Proof.
  apply (TestBackOff_rows_within_tolerance (lib := exampleLib) 3 1688 7).
  unfold TestBackOff_table. simpl. tauto.
Defined.

(** Attempt 3 with a draw of 7: 1688 - 43 milliseconds. *)
Lemma backOff_delay_upto_58_example :
  backOff_ms (lib := exampleLib) 3 7 = spec_delay_ms 3 (- 43) /\
  100 <= backOff_ms (lib := exampleLib) 3 7.
Proof.
  destruct (backOff_delay_upto_58 (lib := exampleLib) 3 7 ltac:(lia))
    as (Hms & _ & _ & Hfloor & _).
  split; [exact Hms | exact Hfloor].
Defined.

(** ** What an operation sends and how often it sleeps *)

Lemma timer_durations_app (tr tr' : list Event) :
  timer_durations (tr ++ tr') = timer_durations tr ++ timer_durations tr'.
Proof.
  induction tr as [|e tr IH]; [reflexivity|].
  destruct e; simpl; rewrite IH; reflexivity.
Qed.

Lemma only_bodies_touched_refl (w : World) : only_bodies_touched w w.
Proof. repeat split. Qed.

Lemma only_bodies_touched_trans (w1 w2 w3 : World) :
  only_bodies_touched w1 w2 -> only_bodies_touched w2 w3 ->
  only_bodies_touched w1 w3.
Proof.
  unfold only_bodies_touched.
  intros (A1 & A2 & A3 & A4 & A5 & A6 & A7) (B1 & B2 & B3 & B4 & B5 & B6 & B7).
  repeat split; congruence.
Qed.

Lemma io_Copy_Discard_frame (r : nat) (w : World) :
  only_bodies_touched w (snd (io_Copy_Discard r w)).
Proof.
  unfold io_Copy_Discard. destruct (nth_error (bodies w) r);
    [|apply only_bodies_touched_refl].
  repeat split; cbn [snd emit set_bodies trace].
  - rewrite count_sends_app. cbn. lia.
  - rewrite timer_durations_app. cbn. now rewrite app_nil_r.
Qed.

Lemma Body_Close_frame (r : nat) (w : World) :
  only_bodies_touched w (snd (Body_Close r w)).
Proof.
  unfold Body_Close. destruct (nth_error (bodies w) r);
    [|apply only_bodies_touched_refl].
  repeat split; cbn [snd emit set_bodies trace].
  - rewrite count_sends_app. cbn. lia.
  - rewrite timer_durations_app. cbn. now rewrite app_nil_r.
Qed.

Lemma after_decode_frame (n r : nat) (w : World) :
  only_bodies_touched w (after_decode n r w).
Proof.
  unfold after_decode. repeat split; cbn [emit set_bodies trace].
  - rewrite count_sends_app. cbn. lia.
  - rewrite timer_durations_app. cbn. now rewrite app_nil_r.
Qed.

Section Frames.

Context {lib : GoLib}.

Lemma drainAndClose_frame (resp : Response) (w : World) :
  only_bodies_touched w (snd (drainAndCloseHttpResponse resp w)).
Proof.
  unfold drainAndCloseHttpResponse, bind.
  pose proof (io_Copy_Discard_frame (Body resp) w) as H1.
  destruct (io_Copy_Discard (Body resp) w) as [[] w1]. cbn [snd] in H1.
  eapply only_bodies_touched_trans; [exact H1|]. apply Body_Close_frame.
Qed.

Lemma parseError_frame (resp : Response) (w : World) :
  only_bodies_touched w (snd (parseError resp w)).
Proof.
  unfold parseError.
  destruct ((StatusCode resp =? 400) || (StatusCode resp =? 409)).
  { rewrite parse400or409_spec. apply after_decode_frame. }
  destruct (StatusCode resp =? 403).
  { rewrite parse403_spec. apply after_decode_frame. }
  destruct (StatusCode resp =? 404); apply only_bodies_touched_refl.
Qed.

Lemma httpDo_result_touch (resp : Response) (res : option AccountData) (w : World) :
  only_bodies_touched w (snd (httpDo_result resp res w)).
Proof.
  unfold httpDo_result, bind.
  destruct (isSuccess (StatusCode resp)).
  - destruct res as [v|]; [|apply only_bodies_touched_refl].
    destruct (negb (StatusCode resp =? 204)); [|apply only_bodies_touched_refl].
    rewrite json_Decode_spec. apply after_decode_frame.
  - pose proof (parseError_frame resp w) as H.
    destruct (parseError resp w) as [e w1]. exact H.
Qed.

End Frames.

Lemma count_sends_sleep_events (t : nat) (o : SelectOutcome) :
  count_sends (sleep_events t o) = 0%nat.
Proof. destruct o as [|[|]]; reflexivity. Qed.

Lemma timer_durations_sleep_events (t : nat) (o : SelectOutcome) :
  timer_durations (sleep_events t o) = [].
Proof. destruct o as [|[|]]; reflexivity. Qed.

Lemma repeat_snoc {A} (x : A) (n : nat) : x :: repeat x n = repeat x n ++ [x].
Proof. induction n as [|n IH]; simpl; [reflexivity | now rewrite <- IH]. Qed.

Section Counts.

Context {lib : GoLib}.
Variables (a : api) (ctx : Context) (req : Request).

(** The sends, sleeps and draws of a run, for any client and context. *)
Lemma run_counts (k i : nat) (w : World) :
  exists s t : nat,
    let r := fst (httpDoRetry_from a ctx req k i w) in
    let w' := snd (httpDoRetry_from a ctx req k i w) in
    List.length (sent w') = (List.length (sent w) + s)%nat /\
    count_sends (trace w') = (count_sends (trace w) + s)%nat /\
    timers w' = timers w ++ repeat Idle t /\
    draws w' = (draws w + t)%nat /\
    rand_src w' = rand_src w /\
    (s <= k)%nat /\ (0 < k -> 0 < s)%nat /\ (t <= s)%nat /\ (s <= t + 1)%nat /\
    match r with
    | Ok resp => s = (t + 1)%nat /\ isTransient (StatusCode resp) = false
    | Err _ => True
    end.
Proof.
  revert i w. induction k as [|k IH]; intros i w.
  - exists 0%nat, 0%nat. cbn. rewrite app_nil_r, !Nat.add_0_r.
    repeat split; lia.
  - simpl. unfold bind, Return. rewrite httpDoRetry_attempt_spec. cbv zeta.
    destruct (client a (List.length (sent w)) req (reqBody w)) as [n [msg|st c]].
    + exists 1%nat, 0%nat. cbn [fst snd sent trace timers draws rand_src repeat].
      rewrite length_app, count_sends_app, app_nil_r.
      change (count_sends [EvSend ?x1]) with 1%nat.
      cbn [List.length]. repeat split; lia.
    + destruct (isTransient st) eqn:Hst.
      * destruct (ctx_select ctx (List.length (timers w))) as [|raced] eqn:Hsel;
          cbn [sleep_result option_map].
        -- match goal with |- context [httpDoRetry_from a ctx req k (S i) ?x] =>
             set (w1 := x)
           end.
           assert (E1 : sent w1 = sent w ++ [reqBody w]) by reflexivity.
           assert (E2 : count_sends (trace w1) = S (count_sends (trace w))).
           { unfold w1. cbn [trace].
             rewrite !count_sends_app, count_sends_sleep_events.
             change (count_sends [EvSend ?x1; EvDrain ?x2; EvClose ?x3; EvNewTimer ?x4])
               with 1%nat.
             lia. }
           assert (E3 : timers w1 = timers w ++ [Idle]) by reflexivity.
           assert (E4 : draws w1 = S (draws w)) by reflexivity.
           assert (E5 : rand_src w1 = rand_src w) by reflexivity.
           clearbody w1.
           destruct (IH (S i) w1) as (s & t & H). cbv zeta in H.
           destruct H as (H1 & H2 & H3 & H4 & H5 & H6 & H7 & H8 & H9 & H10).
           exists (S s), (S t).
           rewrite H1, H2, H3, H4, H5, E1, E2, E3, E4, E5, length_app, <- app_assoc.
           cbn [app repeat List.length].
           repeat split; try lia.
           destruct (fst (httpDoRetry_from a ctx req k (S i) w1)); [|exact I].
           destruct H10. split; [lia | assumption].
        -- exists 1%nat, 1%nat. cbn [fst snd sent trace timers draws rand_src repeat].
           rewrite length_app, !count_sends_app, count_sends_sleep_events.
           change (count_sends [EvSend ?x1; EvDrain ?x2; EvClose ?x3; EvNewTimer ?x4])
             with 1%nat.
           cbn [List.length]. repeat split; lia.
      * exists 1%nat, 0%nat.
        cbn [fst snd sent trace timers draws rand_src repeat StatusCode].
        rewrite length_app, count_sends_app, app_nil_r.
        change (count_sends [EvSend ?x1]) with 1%nat.
        cbn [List.length]. repeat split; try lia. exact Hst.
Qed.

End Counts.

Section OperationCounts.

Context {lib : GoLib}.
Variables (a : api) (ctx : Context).

(** The sends, sleeps and draws of a whole [httpDo]. *)
Lemma httpDo_counts (method url : string) (body res : option AccountData)
      (w : World) :
  exists s t : nat,
    let w' := snd (httpDo a ctx method url body res w) in
    List.length (sent w') = (List.length (sent w) + s)%nat /\
    count_sends (trace w') = (count_sends (trace w) + s)%nat /\
    timers w' = timers w ++ repeat Idle t /\
    draws w' = (draws w + t)%nat /\
    rand_src w' = rand_src w /\
    (s <= retryCount a)%nat /\ (t <= s)%nat /\ (s <= t + 1)%nat.
Proof.
  assert (Hnone : forall w0 : World,
             sent w0 = sent w -> trace w0 = trace w -> timers w0 = timers w ->
             draws w0 = draws w -> rand_src w0 = rand_src w ->
             exists s t : nat,
               List.length (sent w0) = (List.length (sent w) + s)%nat /\
               count_sends (trace w0) = (count_sends (trace w) + s)%nat /\
               timers w0 = timers w ++ repeat Idle t /\
               draws w0 = (draws w + t)%nat /\
               rand_src w0 = rand_src w /\
               (s <= retryCount a)%nat /\ (t <= s)%nat /\ (s <= t + 1)%nat).
  { intros w0 E1 E2 E3 E4 E5. exists 0%nat, 0%nat.
    rewrite E1, E2, E3, E4, E5, app_nil_r, !Nat.add_0_r. repeat split; lia. }
  cbv zeta.
  destruct (json_Encode body) as [b|e] eqn:He.
  2:{ unfold httpDo. rewrite He. apply Hnone; reflexivity. }
  destruct (http_NewRequestWithContext method url b) as [req0|e] eqn:Hr.
  2:{ unfold httpDo. rewrite He, Hr. apply Hnone; reflexivity. }
  rewrite (httpDo_unfold a ctx _ _ _ _ _ _ _ He Hr). unfold httpDoRetry.
  destruct (run_counts a ctx (httpDo_headers req0) (retryCount a) 0
                       (set_reqBody b w)) as (s & t & H).
  cbv zeta in H. cbn [sent trace timers draws rand_src set_reqBody] in H.
  destruct H as (H1 & H2 & H3 & H4 & H5 & H6 & _ & H8 & H9 & _).
  exists s, t.
  destruct (httpDoRetry_from _ _ _ _ _ _) as [[resp|e] w1]; cbn [snd] in *.
  - pose proof (httpDo_result_touch resp res w1) as F1.
    destruct (httpDo_result resp res w1) as [out w2]. cbn [snd] in *.
    pose proof (drainAndClose_frame resp w2) as F2.
    destruct (only_bodies_touched_trans _ _ _ F1 F2)
      as (_ & G2 & G3 & G4 & G5 & G6 & _).
    rewrite G2, G3, G4, G5, G6. repeat split; assumption.
  - repeat split; assumption.
Qed.

(** Whatever the client and the context do, a run of the retry loop sends
    at most [count] requests, and at least one when [count] is not 0; an
    operation sends at most the configured number of requests.  The sends
    in the trace and the bodies the requests carried are counted alike. *)
Theorem sends_never_exceed_the_attempts_allowed :
  (forall (req : Request) (count : nat) (w : World),
      let w' := snd (httpDoRetry a ctx req count w) in
      (List.length (sent w') <= List.length (sent w) + count)%nat /\
      (0 < count -> List.length (sent w) < List.length (sent w'))%nat /\
      (count_sends (trace w') - count_sends (trace w)
       = List.length (sent w') - List.length (sent w))%nat) /\
  (forall (method url : string) (body res : option AccountData) (w : World),
      let w' := snd (httpDo a ctx method url body res w) in
      (List.length (sent w) <= List.length (sent w')
       <= List.length (sent w) + retryCount a)%nat /\
      (count_sends (trace w') - count_sends (trace w)
       = List.length (sent w') - List.length (sent w))%nat).
Proof.
  split.
  - intros req count w. cbv zeta. unfold httpDoRetry.
    destruct (run_counts a ctx req count 0 w) as (s & t & H). cbv zeta in H.
    destruct H as (H1 & H2 & _ & _ & _ & H6 & H7 & _).
    rewrite H1, H2. repeat split; lia.
  - intros method url body res w. cbv zeta.
    destruct (httpDo_counts method url body res w) as (s & t & H). cbv zeta in H.
    destruct H as (H1 & H2 & _ & _ & _ & H6 & _).
    rewrite H1, H2. repeat split; lia.
Qed.

(** When an operation returns, with whatever outcome, every timer it
    created is at rest: received from or stopped.  It created one timer
    per random draw, and as many timers as it sent requests, or one less. *)
Theorem no_timer_is_left_running (method url : string)
        (body res : option AccountData) (w : World) :
  let w' := snd (httpDo a ctx method url body res w) in
  exists t : nat,
    timers w' = timers w ++ repeat Idle t /\
    draws w' = (draws w + t)%nat /\
    rand_src w' = rand_src w /\
    (t <= List.length (sent w') - List.length (sent w) <= t + 1)%nat.
Proof.
  cbv zeta.
  destruct (httpDo_counts method url body res w) as (s & t & H). cbv zeta in H.
  destruct H as (H1 & _ & H3 & H4 & H5 & _ & H7 & H8).
  exists t. rewrite H1. repeat split; try assumption; lia.
Qed.

(** [httpDo] after the retry loop has handed back a response. *)
Lemma httpDo_after_response (method url : string) (body res : option AccountData)
      (b : list byte) (req0 : Request) (w : World) (resp : Response) (w1 : World) :
  json_Encode body = Ok b ->
  http_NewRequestWithContext method url b = Ok req0 ->
  httpDoRetry a ctx (httpDo_headers req0) (retryCount a) (set_reqBody b w)
    = (Ok resp, w1) ->
  fst (httpDo a ctx method url body res w) = fst (httpDo_result resp res w1) /\
  trace (snd (httpDo a ctx method url body res w))
  = trace (snd (httpDo_result resp res w1))
      ++ [EvDrain (Body resp); EvClose (Body resp)] /\
  isTransient (StatusCode resp) = false.
Proof.
  intros He Hr Hrun.
  rewrite (httpDo_unfold a ctx _ _ _ _ _ _ _ He Hr), Hrun.
  pose proof (run_bodies a ctx (httpDo_headers req0) (retryCount a) 0
                         (set_reqBody b w)) as Hb.
  destruct (run_counts a ctx (httpDo_headers req0) (retryCount a) 0
                       (set_reqBody b w)) as (s & t & Hc).
  cbv zeta in Hc. destruct Hc as (_ & _ & _ & _ & _ & _ & _ & _ & _ & Hc).
  unfold httpDoRetry in Hrun. rewrite Hrun in Hb, Hc. cbn [fst] in Hc.
  destruct Hb as (done & c & Hb & _ & Hidx).
  destruct (httpDo_result_frame resp res w1 _ c 0%nat Hb Hidx)
    as (c' & tr & Hb2 & _ & _).
  destruct (httpDo_result resp res w1) as [out w2]. cbn [fst snd] in *.
  destruct resp as [st r]. cbn [Body StatusCode] in *. subst r.
  rewrite (drainAndClose_last st w2 _ c' 0%nat Hb2). cbn [snd trace].
  repeat split. apply Hc.
Qed.

End OperationCounts.

(** ** Operations by the status of the final response *)

Section ByStatus.

Context {lib : GoLib}.
Variables (a : api) (ctx : Context).

(** [httpDo] with a destination, as [Create] and [Fetch] call it, once
    the retry loop has handed back a response. *)
Lemma httpDo_into_destination (method url : string) (body : option AccountData)
      (v : AccountData) (b : list byte) (req0 : Request) (w : World)
      (resp : Response) (w1 : World) :
  json_Encode body = Ok b ->
  http_NewRequestWithContext method url b = Ok req0 ->
  httpDoRetry a ctx (httpDo_headers req0) (retryCount a) (set_reqBody b w)
    = (Ok resp, w1) ->
  let d := json_Decode_Data (unread (nth (Body resp) (bodies w1) (mkBody [] 0%nat)))
                            v in
  let r := httpDo a ctx method url body (Some v) w in
  (StatusCode resp = 204 ->
   fst r = (Some v, None) /\
   trace (snd r) = trace w1 ++ [EvDrain (Body resp); EvClose (Body resp)]) /\
  (StatusCode resp = 200 \/ StatusCode resp = 201 ->
   fst r = (Some (dec_value d), option_map JsonError (dec_err d)) /\
   trace (snd r) = trace w1 ++ [EvDecode (Body resp); EvDrain (Body resp);
                                EvClose (Body resp)]).
Proof.
  intros He Hr Hrun d r.
  destruct (httpDo_after_response a ctx method url body (Some v) b req0 w resp w1
                                  He Hr Hrun) as (Hfst & Htr & _).
  subst r. rewrite Hfst, Htr. unfold httpDo_result, bind. split.
  - intros Hst. rewrite Hst. cbn. auto.
  - intros Hst.
    assert (Hs : isSuccess (StatusCode resp) = true
                 /\ negb (StatusCode resp =? 204) = true)
      by (destruct Hst as [Hst|Hst]; rewrite Hst; split; reflexivity).
    destruct Hs as [Hs1 Hs2]. rewrite Hs1, Hs2, json_Decode_spec.
    cbn [fst snd Return]. fold d. split; [reflexivity|].
    unfold after_decode, emit. cbn [trace set_bodies]. rewrite <- app_assoc.
    reflexivity.
Qed.

(** [Create] and [Fetch] on a success status.  On 204 they return the
    zero account and no error, and no decoder reads the body, whatever it
    holds.  On 200 and 201 they return what the decoder made of the body,
    or the zero account and the decoder's error.  The body is drained and
    closed after that in both cases. *)
Theorem accounts_on_success_statuses :
  (forall (data : AccountData) (b : list byte) (req0 : Request) (w : World)
          (resp : Response) (w1 : World),
      json_Encode (Some data) = Ok b ->
      http_NewRequestWithContext
        "POST" (BaseURL ++ "/v1/organisation/accounts")%string b = Ok req0 ->
      httpDoRetry a ctx (httpDo_headers req0) (retryCount a) (set_reqBody b w)
        = (Ok resp, w1) ->
      let d := json_Decode_Data
                 (unread (nth (Body resp) (bodies w1) (mkBody [] 0%nat)))
                 AccountData_zero in
      let r := Create a ctx data w in
      (StatusCode resp = 204 ->
       fst r = (AccountData_zero, None) /\
       trace (snd r) = trace w1 ++ [EvDrain (Body resp); EvClose (Body resp)]) /\
      (StatusCode resp = 200 \/ StatusCode resp = 201 ->
       fst r = match dec_err d with
               | None => (dec_value d, None)
               | Some msg => (AccountData_zero, Some (JsonError msg))
               end /\
       trace (snd r) = trace w1 ++ [EvDecode (Body resp); EvDrain (Body resp);
                                    EvClose (Body resp)])) /\
  (forall (accountID : string) (b : list byte) (req0 : Request) (w : World)
          (resp : Response) (w1 : World),
      json_Encode None = Ok b ->
      http_NewRequestWithContext
        "GET" (BaseURL ++ "/v1/organisation/accounts/" ++ accountID)%string b
        = Ok req0 ->
      httpDoRetry a ctx (httpDo_headers req0) (retryCount a) (set_reqBody b w)
        = (Ok resp, w1) ->
      let d := json_Decode_Data
                 (unread (nth (Body resp) (bodies w1) (mkBody [] 0%nat)))
                 AccountData_zero in
      let r := Fetch a ctx accountID w in
      (StatusCode resp = 204 ->
       fst r = (AccountData_zero, None) /\
       trace (snd r) = trace w1 ++ [EvDrain (Body resp); EvClose (Body resp)]) /\
      (StatusCode resp = 200 \/ StatusCode resp = 201 ->
       fst r = match dec_err d with
               | None => (dec_value d, None)
               | Some msg => (AccountData_zero, Some (JsonError msg))
               end /\
       trace (snd r) = trace w1 ++ [EvDecode (Body resp); EvDrain (Body resp);
                                    EvClose (Body resp)])).
Proof.
  split.
  - intros data b req0 w resp w1 He Hr Hrun d r.
    destruct (httpDo_into_destination _ _ _ AccountData_zero b req0 w resp w1
                                      He Hr Hrun) as (H204 & H200).
    subst r. unfold Create, bind.
    destruct (httpDo a ctx "POST" _ (Some data) (Some AccountData_zero) w)
      as [[dest err] w'].
    cbn [fst snd] in *. split; intros Hst.
    + destruct (H204 Hst) as [Hf Ht]. inversion Hf; subst. cbn. auto.
    + destruct (H200 Hst) as [Hf Ht]. inversion Hf; subst. fold d.
      destruct (dec_err d); cbn; auto.
  - intros accountID b req0 w resp w1 He Hr Hrun d r.
    destruct (httpDo_into_destination _ _ _ AccountData_zero b req0 w resp w1
                                      He Hr Hrun) as (H204 & H200).
    subst r. unfold Fetch, bind.
    destruct (httpDo a ctx "GET" _ None (Some AccountData_zero) w)
      as [[dest err] w'].
    cbn [fst snd] in *. split; intros Hst.
    + destruct (H204 Hst) as [Hf Ht]. inversion Hf; subst. cbn. auto.
    + destruct (H200 Hst) as [Hf Ht]. inversion Hf; subst. fold d.
      destruct (dec_err d); cbn; auto.
Qed.

(** [Delete] on any of the success statuses 200, 201 and 204 returns no
    error and never decodes: the body of the response, whatever it holds,
    is only drained and closed. *)
Theorem Delete_ignores_the_body (accountID : string) (version : Z)
        (b : list byte) (req0 : Request) (w : World) (resp : Response)
        (w1 : World) :
  json_Encode None = Ok b ->
  http_NewRequestWithContext
    "DELETE" (BaseURL ++ "/v1/organisation/accounts/" ++ accountID
                      ++ "?version=" ++ NilZero.string_of_int (Z.to_int version))%string
    b = Ok req0 ->
  httpDoRetry a ctx (httpDo_headers req0) (retryCount a) (set_reqBody b w)
    = (Ok resp, w1) ->
  In (StatusCode resp) [200; 201; 204] ->
  fst (Delete a ctx accountID version w) = None /\
  trace (snd (Delete a ctx accountID version w))
  = trace w1 ++ [EvDrain (Body resp); EvClose (Body resp)].
Proof.
  intros He Hr Hrun Hst.
  destruct (httpDo_after_response a ctx _ _ None None b req0 w resp w1 He Hr Hrun)
    as (Hfst & Htr & _).
  unfold Delete, bind, Return.
  destruct (httpDo a ctx "DELETE" _ None None w) as [[dest err] w'].
  cbn [fst snd] in *.
  assert (Hs : isSuccess (StatusCode resp) = true).
  { simpl in Hst. destruct Hst as [<-|[<-|[<-|[]]]]; reflexivity. }
  unfold httpDo_result in Hfst, Htr. rewrite Hs in Hfst, Htr.
  unfold Return in Hfst, Htr. cbn [fst snd] in Hfst, Htr.
  inversion Hfst; subst. split; [reflexivity | exact Htr].
Qed.

(** The error of the end of [httpDo] is an HTTP error exactly for the
    statuses without a case of their own. *)
Lemma httpDo_result_ErrHttp (resp : Response) (res : option AccountData)
      (w : World) (st : Z) :
  snd (fst (httpDo_result resp res w)) = Some (Ptr (ErrHttp st)) <->
  st = StatusCode resp /\ ~ In (StatusCode resp) handled_statuses.
Proof.
  unfold httpDo_result, isSuccess, parseError, bind, handled_statuses.
  destruct (Z.eqb_spec (StatusCode resp) 200) as [E|N200].
  { rewrite E. cbn. destruct res; cbn; split;
      try discriminate; try (intros [_ H]; exfalso; apply H; auto);
      destruct (dec_err _); cbn; discriminate. }
  destruct (Z.eqb_spec (StatusCode resp) 201) as [E|N201].
  { rewrite E. cbn. destruct res; cbn; split;
      try discriminate; try (intros [_ H]; exfalso; apply H; auto);
      destruct (dec_err _); cbn; discriminate. }
  destruct (Z.eqb_spec (StatusCode resp) 204) as [E|N204].
  { rewrite E. cbn. destruct res; cbn; split;
      try discriminate; try (intros [_ H]; exfalso; apply H; auto 6). }
  cbn [orb].
  destruct (Z.eqb_spec (StatusCode resp) 400) as [E|N400].
  { cbn [orb]. rewrite parse400or409_spec. cbn [fst snd Return]. split.
    - destruct (dec_err _); [discriminate|].
      destruct (StatusCode resp =? 400); discriminate.
    - intros [_ H]. exfalso. apply H. rewrite E. simpl. auto 6. }
  destruct (Z.eqb_spec (StatusCode resp) 409) as [E|N409].
  { cbn [orb]. rewrite parse400or409_spec. cbn [fst snd Return]. split.
    - destruct (dec_err _); [discriminate|].
      destruct (StatusCode resp =? 400); discriminate.
    - intros [_ H]. exfalso. apply H. rewrite E. simpl. auto 6. }
  cbn [orb].
  destruct (Z.eqb_spec (StatusCode resp) 403) as [E|N403].
  { rewrite parse403_spec. cbn [fst snd Return]. split.
    - destruct (dec_err _); discriminate.
    - intros [_ H]. exfalso. apply H. rewrite E. simpl. auto 7. }
  destruct (Z.eqb_spec (StatusCode resp) 404) as [E|N404].
  { cbn [fst snd Return]. split.
    - discriminate.
    - intros [_ H]. exfalso. apply H. rewrite E. simpl. auto 8. }
  cbn [fst snd Return newErrHttp]. split.
  - intros H. inversion H. split; [reflexivity|].
    simpl. intros [K|[K|[K|[K|[K|[K|[K|[]]]]]]]]; congruence.
  - intros [-> _]. reflexivity.
Qed.

(** When the retry loop hands back a response, the operation fails with
    the HTTP error [ErrHttp{st}] exactly when [st] is the status of that
    response and is none of 200, 201, 204, 400, 409, 403, 404; the status
    is never one of the transient ones.  So other 2xx statuses, such as
    202, are errors, and 429, 500, 503 and 504 never come back in an HTTP
    error. *)
Theorem ErrHttp_exactly_for_unhandled_statuses (method url : string)
        (body res : option AccountData) (b : list byte) (req0 : Request)
        (w : World) (resp : Response) (w1 : World) (st : Z) :
  json_Encode body = Ok b ->
  http_NewRequestWithContext method url b = Ok req0 ->
  httpDoRetry a ctx (httpDo_headers req0) (retryCount a) (set_reqBody b w)
    = (Ok resp, w1) ->
  (snd (fst (httpDo a ctx method url body res w)) = Some (Ptr (ErrHttp st)) <->
   st = StatusCode resp /\ ~ In st handled_statuses) /\
  ~ In (StatusCode resp) transient_set.
Proof.
  intros He Hr Hrun.
  destruct (httpDo_after_response a ctx method url body res b req0 w resp w1
                                  He Hr Hrun) as (Hfst & _ & Htrans).
  rewrite Hfst. split.
  - rewrite httpDo_result_ErrHttp. split; intros [H1 H2]; subst; auto.
  - intros Hin. apply isTransient_iff in Hin. congruence.
Qed.

(** With no attempt allowed, as after [WithRetryCount(0)], an operation
    whose request can be built fails with too-many-retries whatever the
    client and the context are, and nothing is sent, drained or slept on:
    the world only gets the encoded body in the buffer. *)
Theorem no_attempts_no_traffic (method url : string)
        (body res : option AccountData) (b : list byte) (w : World) :
  retryCount a = 0%nat ->
  json_Encode body = Ok b ->
  http_NewRequest_check method url = None ->
  httpDo a ctx method url body res w
  = ((res, Some (Ptr ErrTooManyRetries)), set_reqBody b w).
Proof.
  intros Hk He Hr.
  apply (httpDo_retry_error a ctx _ _ _ _ b _ _ _ _ He (NewRequest_ok _ _ _ Hr)).
  rewrite Hk. reflexivity.
Qed.

End ByStatus.

(** ** Configuration *)

Lemma NewAPI_snoc (dflt : Client) (opts : list (api -> api)) (f : api -> api) :
  NewAPI dflt (opts ++ [f]) = f (NewAPI dflt opts).
Proof. unfold NewAPI. rewrite fold_left_app. reflexivity. Qed.

(** [NewAPI] without options has the default client and 3 attempts.
    Options apply in the order given: the last [WithRetryCount] and the
    last [WithHttpClient] decide, whatever came before, each leaves the
    other setting alone, and the two can be given in either order. *)
Theorem NewAPI_options_compose (dflt : Client) :
  NewAPI dflt [] = mkApi dflt 3 /\
  (forall (opts : list (api -> api)) (n : nat),
      retryCount (NewAPI dflt (opts ++ [WithRetryCount n])) = n /\
      client (NewAPI dflt (opts ++ [WithRetryCount n])) = client (NewAPI dflt opts)) /\
  (forall (opts : list (api -> api)) (c : Client),
      client (NewAPI dflt (opts ++ [WithHttpClient c])) = c /\
      retryCount (NewAPI dflt (opts ++ [WithHttpClient c]))
      = retryCount (NewAPI dflt opts)) /\
  (forall (opts : list (api -> api)) (c : Client) (n : nat),
      NewAPI dflt (opts ++ [WithHttpClient c; WithRetryCount n]) = mkApi c n /\
      NewAPI dflt (opts ++ [WithRetryCount n; WithHttpClient c]) = mkApi c n).
Proof.
  split; [reflexivity|]. split; [|split].
  - intros opts n. rewrite NewAPI_snoc. split; reflexivity.
  - intros opts c. rewrite NewAPI_snoc. split; reflexivity.
  - intros opts c n.
    change [WithHttpClient c; WithRetryCount n]
      with ([WithHttpClient c] ++ [WithRetryCount n]).
    change [WithRetryCount n; WithHttpClient c]
      with ([WithRetryCount n] ++ [WithHttpClient c]).
    rewrite !app_assoc, !NewAPI_snoc. split; reflexivity.
Qed.

(** ** The timer factory in the context *)

Section TimerFactoryFacts.

Variable Factory : Type.
Variable dflt : Factory.

(** The factory [mustGetNewTimer] finds is the one of the nearest
    [withNewTimer], under any number of values of other keys and of
    cancellations put on top; without one it is [newTimer].  A nil
    factory stored by [withNewTimer] is found as well and is returned
    instead of the default.  As long as only [withNewTimer] has stored
    under the package's key, the type assertion never panics. *)
Theorem mustGetNewTimer_finds_the_nearest_factory :
  (forall (ctx : valueCtx Factory) (f : newTimerFunc Factory),
      mustGetNewTimer dflt (withNewTimer ctx f) = Some f) /\
  (forall (ctx : valueCtx Factory) (name : string) (v : any Factory),
      mustGetNewTimer dflt (ctxWithValue ctx (foreignKey name) v)
      = mustGetNewTimer dflt ctx) /\
  (forall ctx : valueCtx Factory,
      mustGetNewTimer dflt (ctxWithCancel ctx) = mustGetNewTimer dflt ctx) /\
  mustGetNewTimer dflt ctxBackground = Some (Some dflt) /\
  (forall ctx : valueCtx Factory,
      mustGetNewTimer dflt (withNewTimer ctx None) = Some None) /\
  (forall ctx : valueCtx Factory,
      only_withNewTimer ctx -> exists f, mustGetNewTimer dflt ctx = Some f) /\
  (forall (ctx : valueCtx Factory) (v : string),
      mustGetNewTimer dflt (ctxWithValue ctx ctxNewTimer (anyOther v)) = None).
Proof.
  repeat split.
  intros ctx. induction ctx as [|parent IH key val|parent IH]; intros H.
  - exists (Some dflt). reflexivity.
  - destruct key as [|name].
    + destruct H as [[f ->] _]. exists f. reflexivity.
    + exact (IH H).
  - exact (IH H).
Qed.

End TimerFactoryFacts.

(** A test context: a deadline on top of a foreign value on top of the
    factory of the tests, here factory number 1 against the default 0. *)
Lemma mustGetNewTimer_finds_the_nearest_factory_example :
  let ctx := ctxWithCancel
               (ctxWithValue (withNewTimer ctxBackground (Some 1%nat))
                             (foreignKey "trace-id") (anyOther "abc")) in
  only_withNewTimer ctx /\
  exists f, mustGetNewTimer 0%nat ctx = Some f.
Proof.
  cbv zeta.
  assert (H : only_withNewTimer
                (ctxWithCancel
                   (ctxWithValue (withNewTimer ctxBackground (Some 1%nat))
                                 (foreignKey "trace-id") (anyOther "abc")))).
  { simpl. split; [|exact I]. exists (Some 1%nat). reflexivity. }
  split; [exact H|].
  destruct (mustGetNewTimer_finds_the_nearest_factory nat 0%nat)
    as (_ & _ & _ & _ & _ & Hsafe & _).
  exact (Hsafe _ H).
Defined.

(** ** The sleeps of a run that uses up its attempts *)

Section Sleeps.

Context {lib : GoLib}.
Variables (a : api) (ctx : Context) (req : Request).

Lemma exhausted_durations :
  always_transient (client a) -> never_cancelled ctx ->
  forall (k i : nat) (w : World),
    timer_durations (trace (snd (httpDoRetry_from a ctx req k i w)))
    = timer_durations (trace w)
      ++ map (fun j => backOff_duration (i + j) (rand_src w (draws w + j)))
             (seq 0 k).
Proof.
  intros Hc Hs. induction k as [|k IH]; intros i w.
  - simpl. now rewrite app_nil_r.
  - simpl. unfold bind. rewrite httpDoRetry_attempt_spec. cbv zeta.
    destruct (Hc (List.length (sent w)) req (reqBody w)) as (st & c & Hr & Hst).
    destruct (client a (List.length (sent w)) req (reqBody w)) as [n out].
    simpl in Hr. subst out.
    apply isTransient_iff in Hst. rewrite Hst, Hs. cbn [sleep_result option_map].
    rewrite IH. cbn [trace rand_src draws].
    rewrite !timer_durations_app, timer_durations_sleep_events, app_nil_r.
    cbn [timer_durations]. rewrite <- app_assoc. f_equal.
    rewrite !Nat.add_0_r. cbn [app]. f_equal.
    rewrite <- seq_shift, map_map.
    apply map_ext. intros j. f_equal; [lia|]. f_equal. lia.
Qed.

(** A run that uses up its attempts sleeps once after every attempt, also
    after the last one, before it reports too-many-retries: the sleep
    after attempt [j] asks the timer for the backoff delay of attempt [j]
    with the [j]-th jitter draw of the run. *)
Theorem one_backoff_after_every_attempt (count : nat) (w : World) :
  always_transient (client a) -> never_cancelled ctx ->
  let w' := snd (httpDoRetry a ctx req count w) in
  timer_durations (trace w')
  = timer_durations (trace w)
    ++ map (fun j => backOff_duration j (rand_src w (draws w + j))) (seq 0 count) /\
  List.length (timers w') = (List.length (timers w) + count)%nat.
Proof.
  intros Hc Hs. cbv zeta. split.
  - unfold httpDoRetry. rewrite (exhausted_durations Hc Hs). reflexivity.
  - destruct (exhausted_run a ctx req Hc Hs count 0%nat w)
      as (w' & Hrun & _ & _ & Htm & _).
    unfold httpDoRetry. rewrite Hrun. exact Htm.
Qed.

(** With the default of 3 attempts, a client that keeps answering with a
    transient status makes the loop wait three times, between 2.225 and
    2.522 seconds in all, before it fails. *)
Theorem default_attempts_wait_over_two_seconds (w : World) :
  always_transient (client a) -> never_cancelled ctx ->
  exists d0 d1 d2 : Z,
    timer_durations (trace (snd (httpDoRetry a ctx req DefaultRetryCount w)))
    = timer_durations (trace w) ++ [d0; d1; d2] /\
    2225 * Millisecond <= d0 + d1 + d2 <= 2522 * Millisecond.
Proof.
  intros Hc Hs. unfold httpDoRetry, DefaultRetryCount.
  rewrite (exhausted_durations Hc Hs). cbn [seq map Nat.add].
  do 3 eexists. split; [reflexivity|].
  destruct (backOff_plain_upto_58 0 (rand_src w (draws w + 0)) ltac:(lia))
    as (_ & _ & _ & H0).
  destruct (backOff_plain_upto_58 1 (rand_src w (draws w + 1)) ltac:(lia))
    as (_ & _ & _ & H1).
  destruct (backOff_plain_upto_58 2 (rand_src w (draws w + 2)) ltac:(lia))
    as (_ & _ & _ & H2).
  rewrite H0, H1, H2.
  change (spec_base 0) with 500. change (spec_base 1) with 750.
  change (spec_base 2) with 1125.
  pose proof (Z.mod_pos_bound (rand_src w (draws w + 0)) 100 ltac:(lia)).
  pose proof (Z.mod_pos_bound (rand_src w (draws w + 1)) 100 ltac:(lia)).
  pose proof (Z.mod_pos_bound (rand_src w (draws w + 2)) 100 ltac:(lia)).
  unfold Millisecond. lia.
Qed.

End Sleeps.

(** ** Further worked examples *)

(** [Create] answered with 204 and a body all the same. *)
Lemma accounts_on_success_statuses_example :
  let a := mkApi (newClientReturningStatusCodeAndBuffer 204 [x7b; x7d]) 3 in
  let r := Create (lib := exampleLib) a newContextWithImmediateTimer
                  AccountData_zero (fresh (fun _ => 0)) in
  fst r = (AccountData_zero, None) /\
  trace (snd r) = [EvSend 0; EvDrain 0; EvClose 0].
Proof.
  cbv zeta.
  destruct (accounts_on_success_statuses (lib := exampleLib)
              (mkApi (newClientReturningStatusCodeAndBuffer 204 [x7b; x7d]) 3)
              newContextWithImmediateTimer) as (H & _).
  destruct (H AccountData_zero _ _ (fresh (fun _ => 0)) _ _ eq_refl eq_refl eq_refl)
    as (H204 & _).
  exact (H204 eq_refl).
Defined.

(** [Delete] answered with 200 and a body that is no JSON. *)
Lemma Delete_ignores_the_body_example :
  let a := mkApi (newClientReturningStatusCodeAndBuffer 200 [x3c; x68; x31]) 3 in
  let r := Delete (lib := exampleLib) a newContextWithImmediateTimer "quux" 321
                  (fresh (fun _ => 0)) in
  fst r = None /\ trace (snd r) = [EvSend 0; EvDrain 0; EvClose 0].
Proof.
  cbv zeta.
  refine (Delete_ignores_the_body (lib := exampleLib)
            (mkApi (newClientReturningStatusCodeAndBuffer 200 [x3c; x68; x31]) 3)
            newContextWithImmediateTimer "quux" 321 _ _ (fresh (fun _ => 0)) _ _
            eq_refl eq_refl eq_refl _).
  simpl. auto.
Defined.

(** [Fetch] answered with 202 Accepted fails with the HTTP error 202. *)
Lemma ErrHttp_exactly_for_unhandled_statuses_example :
  let a := mkApi (newClientReturningStatusCode 202) 3 in
  snd (fst (httpDo (lib := exampleLib) a newContextWithImmediateTimer "GET"
                   "http://accountapi:8080/v1/organisation/accounts/foo"
                   None (Some AccountData_zero) (fresh (fun _ => 0))))
  = Some (Ptr (ErrHttp 202)).
Proof.
  cbv zeta.
  destruct (ErrHttp_exactly_for_unhandled_statuses (lib := exampleLib)
              (mkApi (newClientReturningStatusCode 202) 3)
              newContextWithImmediateTimer "GET"
              "http://accountapi:8080/v1/organisation/accounts/foo"
              None (Some AccountData_zero) _ _ (fresh (fun _ => 0)) _ _ 202
              eq_refl eq_refl eq_refl) as (H & _).
  apply H. split; [reflexivity|].
  unfold handled_statuses. simpl. lia.
Defined.

(** An api made with [WithRetryCount(0)]. *)
Lemma no_attempts_no_traffic_example :
  let a := NewAPI (newClientReturningStatusCode 200) [WithRetryCount 0] in
  httpDo (lib := exampleLib) a newContextWithImmediateTimer "GET"
         "http://accountapi:8080/v1/organisation/accounts/foo"
         None (Some AccountData_zero) (fresh (fun _ => 0))
  = ((Some AccountData_zero, Some (Ptr ErrTooManyRetries)),
     set_reqBody [x6e; x75; x6c; x6c; x0a] (fresh (fun _ => 0))).
Proof.
  cbv zeta.
  exact (no_attempts_no_traffic (lib := exampleLib)
           (NewAPI (newClientReturningStatusCode 200) [WithRetryCount 0])
           newContextWithImmediateTimer "GET"
           "http://accountapi:8080/v1/organisation/accounts/foo"
           None (Some AccountData_zero) _ (fresh (fun _ => 0))
           eq_refl eq_refl eq_refl).
Defined.

Lemma always_429_is_transient :
  always_transient (client (mkApi (newClientReturningStatusCode 429) 3)).
Proof. intros i req avail. exists 429, []. split; [reflexivity|]. simpl. auto. Qed.

(** Two attempts against a client that always answers 429, with jitter
    draws 0 and 99: sleeps of 450ms and 799ms. *)
Lemma one_backoff_after_every_attempt_example :
  timer_durations
    (trace (snd (httpDoRetry (lib := exampleLib)
                   (mkApi (newClientReturningStatusCode 429) 3)
                   newContextWithImmediateTimer exampleRequest 2
                   (fresh (fun j => Z.of_nat j * 99)))))
  = [450000000; 799000000].
Proof.
  destruct (one_backoff_after_every_attempt (lib := exampleLib)
              (mkApi (newClientReturningStatusCode 429) 3)
              newContextWithImmediateTimer exampleRequest 2
              (fresh (fun j => Z.of_nat j * 99))
              always_429_is_transient (fun t => eq_refl)) as (H & _).
  rewrite H. vm_compute. reflexivity.
Defined.

(** The default three attempts against a client that always answers 429. *)
Lemma default_attempts_wait_over_two_seconds_example :
  exists d0 d1 d2 : Z,
    timer_durations
      (trace (snd (httpDoRetry (lib := exampleLib)
                     (mkApi (newClientReturningStatusCode 429) 3)
                     newContextWithImmediateTimer exampleRequest 3
                     (fresh (fun _ => 50)))))
    = [d0; d1; d2] /\
    2225 * Millisecond <= d0 + d1 + d2 <= 2522 * Millisecond.
Proof.
  exact (default_attempts_wait_over_two_seconds (lib := exampleLib)
           (mkApi (newClientReturningStatusCode 429) 3)
           newContextWithImmediateTimer exampleRequest (fresh (fun _ => 50))
           always_429_is_transient (fun t => eq_refl)).
Defined.

(** The stub of the tests never reads the request: three attempts carry
    the same five bytes. *)
Lemma unread_body_is_replayed_example :
  exists m, (m <= 3)%nat /\
    sent (snd (httpDoRetry_from (lib := exampleLib)
                 (mkApi (newClientReturningStatusCode 429) 3)
                 newContextWithImmediateTimer exampleRequest 3 0
                 (set_reqBody [x6e; x75; x6c; x6c; x0a] (fresh (fun _ => 50)))))
    = repeat [x6e; x75; x6c; x6c; x0a] m.
Proof.
  destruct (unread_body_is_replayed (lib := exampleLib)
              newContextWithImmediateTimer
              (mkApi (newClientReturningStatusCode 429) 3) exampleRequest
              (fun _ _ _ => eq_refl) 3 0
              (set_reqBody [x6e; x75; x6c; x6c; x0a] (fresh (fun _ => 50))))
    as (m & Hm & Hsent & _).
  exists m. split; [exact Hm | exact Hsent].
Defined.

(** ** The request across attempts *)


Section RequestAcrossAttempts.

Context {lib : GoLib}.
Variables (a : api) (ctx : Context) (req : Request).



End RequestAcrossAttempts.

Lemma Header_Values_Set_same (k v : string) (req : Request) :
  Header_Values k (Header_Set k v req) = [v].
Proof.
  unfold Header_Values, Header_Set. cbn [Header filter fst].
  rewrite String.eqb_refl. cbn [map snd]. f_equal.
  induction (Header req) as [|[k' v'] h IH]; [reflexivity|].
  cbn [filter fst]. destruct (String.eqb k' k) eqn:E; cbn [negb].
  - exact IH.
  - cbn [filter fst]. rewrite E. exact IH.
Qed.

Lemma Header_Values_Set_other (k k' v : string) (req : Request) :
  String.eqb k' k = false ->
  Header_Values k (Header_Set k' v req) = Header_Values k req.
Proof.
  intros Hk. unfold Header_Values, Header_Set. cbn [Header filter fst].
  rewrite Hk. f_equal.
  induction (Header req) as [|[k2 v2] h IH]; [reflexivity|].
  cbn [filter fst]. destruct (String.eqb k2 k') eqn:E; cbn [negb].
  - apply String.eqb_eq in E. subst k2. rewrite Hk. exact IH.
  - cbn [filter fst]. destruct (String.eqb k2 k); [f_equal|]; exact IH.
Qed.

(** Whatever headers a request has before, after [httpDo] has set its
    three headers each of them has exactly one value, the API's content
    type for [Accept] and [Content-Type] and gzip for [Accept-Encoding];
    the values of all other headers, the method, the URL and the declared
    length are as before. *)
Theorem httpDo_sets_three_headers (req : Request) :
  Header_Values "Accept" (httpDo_headers req) = ["application/vnd.api+json"] /\
  Header_Values "Accept-Encoding" (httpDo_headers req) = ["gzip"] /\
  Header_Values "Content-Type" (httpDo_headers req) = ["application/vnd.api+json"] /\
  (forall k : string,
      k <> "Accept" -> k <> "Accept-Encoding" -> k <> "Content-Type" ->
      Header_Values k (httpDo_headers req) = Header_Values k req) /\
  Method (httpDo_headers req) = Method req /\
  URL (httpDo_headers req) = URL req /\
  ContentLength (httpDo_headers req) = ContentLength req.
Proof.
  unfold httpDo_headers. repeat split.
  - rewrite !Header_Values_Set_other by reflexivity.
    apply Header_Values_Set_same.
  - rewrite Header_Values_Set_other by reflexivity.
    apply Header_Values_Set_same.
  - apply Header_Values_Set_same.
  - intros k H1 H2 H3.
    rewrite !Header_Values_Set_other; [reflexivity| | |];
      apply String.eqb_neq; congruence.
Qed.

(** A request that already says it accepts HTML. *)
Lemma httpDo_sets_three_headers_example :
  let req := mkRequest "GET" "http://accountapi:8080" 
                       [("Accept", "text/html"); ("X-Trace", "1")] 5 in
  Header_Values "Accept" (httpDo_headers req) = ["application/vnd.api+json"] /\
  Header_Values "X-Trace" (httpDo_headers req) = ["1"].
Proof.
  cbv zeta.
  destruct (httpDo_sets_three_headers
              (mkRequest "GET" "http://accountapi:8080"
                         [("Accept", "text/html"); ("X-Trace", "1")] 5))
    as (HA & _ & _ & Hother & _).
  split; [exact HA|].
  rewrite Hother; [reflexivity| | |]; discriminate.
Defined.
